(** * wdio-errorshot-reporter: file-name templating and browser inference

    A shallow embedding of [lib/wdio-errorshot-reporter.js] and
    [lib/helpers/slugify.js].

    JavaScript strings are modelled by [string]: one [ascii] per UTF-16 code
    unit, restricted to the code units U+0000..U+00FF.  The regular
    expressions of the source have no [i], [m], [s] or [u] flag, so [\w] is
    [[A-Za-z0-9_]], [.] is any code unit but a line terminator, and [^]/[$]
    only match at the two ends of the input.

    [path.join] and the outcome of [fs.rename] are parameters ([Node]); the
    requests the reporter makes are recorded in a [World].

    The reporter is read twice: over typed records, whose properties are
    absent or hold a value of the expected type, and in [Dynamic] over
    records whose own properties may hold [undefined], [null] or an invalid
    Date, under a configuration that may lack [screenshotPath]. *)

From Stdlib Require Import Bool List Arith Lia NArith Ascii String.
Import ListNotations.

Local Open Scope list_scope.
Local Open Scope string_scope.

(** ** Code units and the character classes of the regular expressions *)

Definition code (c : ascii) : N := N_of_ascii c.

Definition inRange (lo hi : N) (c : ascii) : bool :=
  ((lo <=? code c) && (code c <=? hi))%N.

Definition isUpper (c : ascii) : bool := inRange 65 90 c.
Definition isLower (c : ascii) : bool := inRange 97 122 c.
Definition isDigit (c : ascii) : bool := inRange 48 57 c.

(** [\w] *)
Definition isWordChar (c : ascii) : bool :=
  isUpper c || isLower c || isDigit c || Ascii.eqb c "_".

(** [\s] on U+0000..U+00FF: TAB, LF, VT, FF, CR, SPACE and NBSP. *)
Definition isWhiteSpace (c : ascii) : bool :=
  inRange 9 13 c || Ascii.eqb c " " || (code c =? 160)%N.

(** The complement of [.]: LF and CR. *)
Definition isLineTerminator (c : ascii) : bool :=
  (code c =? 10)%N || (code c =? 13)%N.

Definition isDash (c : ascii) : bool := Ascii.eqb c "-".

(** [[^\w-]] *)
Definition isNonWordNonDash (c : ascii) : bool :=
  negb (isWordChar c || isDash c).

(** A word character that is not an upper-case letter: [[a-z0-9_]]. *)
Definition isLowerWordChar (c : ascii) : bool :=
  isLower c || isDigit c || Ascii.eqb c "_".

(** The simple lower-case mapping of a code unit: [A-Z] and the Latin-1
    capitals U+00C0..U+00DE (but the multiplication sign U+00D7) move up by
    32, every other code unit is kept. *)
Definition toLowerCaseChar (c : ascii) : ascii :=
  if isUpper c || (inRange 192 222 c && negb (code c =? 215)%N)
  then ascii_of_N (code c + 32)
  else c.

(** ** String primitives *)

Fixpoint mapString (f : ascii -> ascii) (s : string) : string :=
  match s with
  | EmptyString => EmptyString
  | String c s' => String (f c) (mapString f s')
  end.

(** [String.prototype.toLowerCase] *)
Definition toLowerCase (s : string) : string := mapString toLowerCaseChar s.

Fixpoint forallString (p : ascii -> bool) (s : string) : bool :=
  match s with
  | EmptyString => true
  | String c s' => p c && forallString p s'
  end.

(** [s.startsWith(search)] *)
Fixpoint startsWith (s search : string) : bool :=
  match search, s with
  | EmptyString, _ => true
  | String _ _, EmptyString => false
  | String d search', String c s' => Ascii.eqb c d && startsWith s' search'
  end.

(** [s.includes(search)] *)
Fixpoint includes (s search : string) : bool :=
  startsWith s search ||
  match s with
  | EmptyString => false
  | String _ s' => includes s' search
  end.

(** [s.endsWith(search)] *)
Fixpoint endsWith (s search : string) : bool :=
  match s with
  | EmptyString => String.eqb search EmptyString
  | String _ s' => String.eqb s search || endsWith s' search
  end.

(** The longest prefix of [s] whose code units satisfy [p], and the rest:
    what a greedy [[class]*] consumes. *)
Fixpoint span (p : ascii -> bool) (s : string) : string * string :=
  match s with
  | EmptyString => (EmptyString, EmptyString)
  | String c s' =>
      if p c then let (m, rest) := span p s' in (String c m, rest)
      else (EmptyString, s)
  end.

(** ** Regular expressions as anchored matchers

    A matcher tries its expression at the head of the input and, on
    success, returns the matched text and the remaining input. *)

Definition Matcher : Type := string -> option (string * string).

(** [[class]+] for a character class [p] *)
Definition reRun (p : ascii -> bool) : Matcher := fun s =>
  match span p s with
  | (EmptyString, _) => None
  | (m, rest) => Some (m, rest)
  end.

(** [/\s+/] *)
Definition reWhiteSpaceRun : Matcher := reRun isWhiteSpace.

(** [/[^\w-]+/] *)
Definition reNonWordRun : Matcher := reRun isNonWordNonDash.

(** [/-+/] at the head of the input *)
Definition reDashRun : Matcher := reRun isDash.

(** [/--+/] *)
Definition reDashDashRun : Matcher := fun s =>
  match s with
  | String c s1 =>
      if isDash c then
        match reDashRun s1 with
        | Some (m, rest) => Some (String c m, rest)
        | None => None
        end
      else None
  | EmptyString => None
  end.

(** [/-+$/]: the greedy run has to reach the end of the input *)
Definition reDashRunToEnd : Matcher := fun s =>
  match reDashRun s with
  | Some (m, EmptyString) => Some (m, EmptyString)
  | _ => None
  end.

(** A single literal code unit, as in [/:/] and [/%/] *)
Definition reChar (d : ascii) : Matcher := fun s =>
  match s with
  | String c rest => if Ascii.eqb c d then Some (String c EmptyString, rest) else None
  | EmptyString => None
  end.

(** [/%\w+%/]: a percent sign, the greedy run of word characters, a percent
    sign.  A word character is never a percent sign, so giving back part of
    the run cannot help. *)
Definition rePlaceholder : Matcher := fun s =>
  match s with
  | String c s1 =>
      if Ascii.eqb c "%" then
        match reRun isWordChar s1 with
        | Some (w, String d rest) =>
            if Ascii.eqb d "%"
            then Some (String c (w ++ String d EmptyString), rest)
            else None
        | _ => None
        end
      else None
  | EmptyString => None
  end.

(** [s.replace(re, fn)] for a global expression [re] that never matches the
    empty string: the matches are found from left to right, each search
    starting where the previous match ended.  The fuel bounds the number of
    steps; [String.length s] is always enough. *)
Fixpoint replaceGlobal (fuel : nat) (re : Matcher) (fn : string -> string)
    (s : string) : string :=
  match fuel with
  | O => s
  | S fuel' =>
      match s with
      | EmptyString => EmptyString
      | String c s' =>
          match re s with
          | Some (m, rest) => fn m ++ replaceGlobal fuel' re fn rest
          | None => String c (replaceGlobal fuel' re fn s')
          end
      end
  end.

Definition replaceAll (re : Matcher) (fn : string -> string) (s : string) : string :=
  replaceGlobal (String.length s) re fn s.

(** [s.replace(re, fn)] without the [g] flag: only the leftmost match. *)
Fixpoint replaceFirst (re : Matcher) (fn : string -> string) (s : string) : string :=
  match re s with
  | Some (m, rest) => fn m ++ rest
  | None =>
      match s with
      | EmptyString => EmptyString
      | String c s' => String c (replaceFirst re fn s')
      end
  end.

(** [s.replace(re, fn)] for an expression that begins with [^]: the match
    can only be at index 0. *)
Definition replaceAtStart (re : Matcher) (fn : string -> string) (s : string) : string :=
  match re s with
  | Some (m, rest) => fn m ++ rest
  | None => s
  end.

(** [re.test(s)] for an expression without anchors *)
Fixpoint test (re : Matcher) (s : string) : bool :=
  match re s with
  | Some _ => true
  | None =>
      match s with
      | EmptyString => false
      | String _ s' => test re s'
      end
  end.

(** ** lib/helpers/slugify.js *)

(** [slugify(text, delimiter)]; a replacement string is taken literally
    (the delimiter holds no [$]). *)
Definition slugifyWith (text delimiter : string) : string :=
  let s := toLowerCase text in
  let s := replaceAll reWhiteSpaceRun (fun _ => delimiter) s in
  let s := replaceAll reNonWordRun (fun _ => "") s in
  let s := replaceAll reDashDashRun (fun _ => delimiter) s in
  let s := replaceAtStart reDashRun (fun _ => "") s in
  replaceFirst reDashRunToEnd (fun _ => "") s.

(** [slugify(text)], with the default [delimiter = '-'] *)
Definition slugify (text : string) : string := slugifyWith text "-".

(** ** Exceptions

    Using [undefined] where a string, a Date or a path is needed raises a
    [TypeError]. *)

Inductive JsError : Type := TypeError.

Inductive result (A : Type) : Type :=
| Ok (a : A)
| Throw (e : JsError).

Arguments Ok {A} a.
Arguments Throw {A} e.

Definition bind {A B : Type} (r : result A) (k : A -> result B) : result B :=
  match r with
  | Ok a => k a
  | Throw e => Throw e
  end.

Notation "x <- r ;; k" := (bind r (fun x => k))
  (at level 61, r at next level, right associativity).

(** Reading a property that is then used as a value of its type. *)
Definition prop {A : Type} (o : option A) : result A :=
  match o with
  | Some a => Ok a
  | None => Throw TypeError
  end.

(** ** Data model *)

(** A [Date] holding a valid time value, seen through [toJSON()], its
    ISO-8601 text. *)
Record Date : Type := { toJSON : string }.

(** The payload of a [runner:screenshot] event; a property the object does
    not own is [None]. *)
Record Screenshot : Type := {
  filename : option string;
  time : option Date;
  parent : option string;
  title : option string
}.

Record ErrorshotReporterOptions : Type := { template : option string }.

Record ReporterOptions : Type := {
  errorshotReporter : option ErrorshotReporterOptions
}.

(** The part of [wdio.conf.js] the reporter reads. *)
Record Config : Type := {
  screenshotPath : string;
  reporterOptions : option ReporterOptions
}.

(** The object literal returned by [getPlaceholderLookup]. *)
Record Placeholders : Type := {
  capId : string;
  browser : string;
  browserName : string;
  timestamp : string;
  parent_ : string;
  title_ : string
}.

(** [placeholders.hasOwnProperty(key) ? Some placeholders[key] : None] *)
Definition ownProperty (placeholders : Placeholders) (key : string) : option string :=
  if String.eqb key "capId" then Some (capId placeholders)
  else if String.eqb key "browser" then Some (browser placeholders)
  else if String.eqb key "browserName" then Some (browserName placeholders)
  else if String.eqb key "timestamp" then Some (timestamp placeholders)
  else if String.eqb key "parent" then Some (parent_ placeholders)
  else if String.eqb key "title" then Some (title_ placeholders)
  else None.

(** The Node.js functions the reporter calls: [path.join] and the outcome
    [fs.rename] hands to its callback ([None] for [null], otherwise the
    error). *)
Record Node : Type := {
  path_join : string -> string -> string;
  fs_rename : string -> string -> option string
}.

(** What the reporter asks of the file system and writes to the console,
    oldest first. *)
Inductive Effect : Type :=
| FsRename (filepathOld filepathNew : string)
| ConsoleLog (message : string).

Definition World : Type := list Effect.

Record ErrorshotReporter : Type := {
  config : Config;
  filenameTemplate : string;
  isInitialized : bool
}.

(** ** Browser name inference *)

(** [/(.*?)_/] at the head of the input: the lazy group grows one code unit
    at a time until an underscore follows, and fails on a line terminator.
    Returns the group and the input after the underscore. *)
Fixpoint reLazyGroupUnderscore (s : string) : option (string * string) :=
  match s with
  | EmptyString => None
  | String c s' =>
      if Ascii.eqb c "_" then Some (EmptyString, s')
      else if isLineTerminator c then None
      else
        match reLazyGroupUnderscore s' with
        | Some (group, rest) => Some (String c group, rest)
        | None => None
        end
  end.

(** [/_(.*?)_/] at the head of the input *)
Definition reUnderscoreGroup (s : string) : option (string * string) :=
  match s with
  | String c s' => if Ascii.eqb c "_" then reLazyGroupUnderscore s' else None
  | EmptyString => None
  end.

(** [filename.match(/_(.*?)_/)]: [None] for [null], otherwise the matched
    text and capture group 1 of the leftmost match. *)
Fixpoint matchUnderscoreGroup (s : string) : option (string * string) :=
  match reUnderscoreGroup s with
  | Some (group, _) => Some ("_" ++ group ++ "_", group)
  | None =>
      match s with
      | EmptyString => None
      | String _ s' => matchUnderscoreGroup s'
      end
  end.

(** Capture group 1 of [filename.match(/_(.*?)_/)], when there is a match. *)
Definition capture (filename : string) : option string :=
  option_map snd (matchUnderscoreGroup filename).

Definition browsers : list string :=
  ["chrome"; "firefox"; "ie"; "edge"; "opera"].

(** Truthiness of a value that is a string ([Some]) or [false]/[null]
    ([None]). *)
Definition truthy (v : option string) : bool :=
  match v with
  | Some s => negb (String.eqb s "")
  | None => false
  end.

(** The [browsers.forEach] loop, started with [browserName = null]. *)
Definition searchBrowsers (filename : string) : option string :=
  fold_left
    (fun browserName browser =>
       if includes filename browser then Some browser else browserName)
    browsers None.

Definition getBrowserFromScreenshotName (filename : string) : string :=
  let parsedFilenameParts := matchUnderscoreGroup filename in
  let browserName :=
    match parsedFilenameParts with
    | Some (_, group1) => Some group1
    | None => None
    end in
  let browserName :=
    if negb (truthy browserName) || negb (startsWith filename "ERROR")
    then searchBrowsers filename
    else browserName in
  match browserName with
  | Some name => if truthy browserName then name else "unknown_browser"
  | None => "unknown_browser"
  end.

(** ** The reporter *)

Definition defaultFilenameTemplate : string :=
  "%timestamp%_%capId%_%parent%-%title%".

Definition getOptionFilenameTemplate (config : Config) : string :=
  match reporterOptions config with
  | None => defaultFilenameTemplate
  | Some options =>
      match errorshotReporter options with
      | None => defaultFilenameTemplate
      | Some reporter =>
          match template reporter with
          | None => defaultFilenameTemplate
          | Some t => if String.eqb t "" then defaultFilenameTemplate else t
          end
      end
  end.

(** [new ErrorshotReporter(baseReporter, config, options)]; the base
    reporter and the options are stored and never read. *)
Definition constructor (config : Config) : ErrorshotReporter :=
  {| config := config;
     filenameTemplate := getOptionFilenameTemplate config;
     isInitialized := true |}.

(** [this.log = () => {}] *)
Definition log (message : string) (w : World) : World := w.

Definition hasRequiredProperties (screenshot : Screenshot) : bool :=
  match filename screenshot with Some _ => true | None => false end
  && match time screenshot with Some _ => true | None => false end
  && match parent screenshot with Some _ => true | None => false end
  && match title screenshot with Some _ => true | None => false end.

Definition screenshotHasRequiredProperties (screenshot : Screenshot) (w : World)
  : bool * World :=
  (hasRequiredProperties screenshot,
   if negb (hasRequiredProperties screenshot)
   then log "Screenshot properties do not match." w
   else w).

Definition getPlaceholderLookup (screenshot : Screenshot) : result Placeholders :=
  name <- prop (filename screenshot) ;;
  let browserName := getBrowserFromScreenshotName name in
  date <- prop (time screenshot) ;;
  parentText <- prop (parent screenshot) ;;
  titleText <- prop (title screenshot) ;;
  Ok {| capId := browserName;
        browser := browserName;
        browserName := browserName;
        timestamp := replaceAll (reChar ":") (fun _ => "-") (toJSON date);
        parent_ := slugify parentText;
        title_ := slugify titleText |}.

(** The replacement callback of [replaceFilenameTemplatePlaceholders]. *)
Definition substitute (placeholders : Placeholders) (match_ : string) : string :=
  let matchNoDelimiter := replaceAll (reChar "%") (fun _ => "") match_ in
  match ownProperty placeholders matchNoDelimiter with
  | Some value => value
  | None => match_
  end.

(** [template.replace(/%\w+%/g, match => ...)] *)
Definition resolveTemplate (placeholders : Placeholders) (template : string) : string :=
  replaceAll rePlaceholder (substitute placeholders) template.

Definition replaceFilenameTemplatePlaceholders (this : ErrorshotReporter)
    (screenshot : Screenshot) : result string :=
  placeholders <- getPlaceholderLookup screenshot ;;
  Ok (resolveTemplate placeholders (filenameTemplate this)).

Definition getScreenshotName (this : ErrorshotReporter) (screenshot : Screenshot)
  : result string :=
  name <- replaceFilenameTemplatePlaceholders this screenshot ;;
  Ok (name ++ ".png").

Definition buildScreenshotFilepath (node : Node) (this : ErrorshotReporter)
    (filename : string) : string :=
  path_join node (screenshotPath (config this)) filename.

(** [renameScreenshot(filepathOld, filepathNew, cb)]: the request goes to
    the file system, and the completion callback logs an error and hands
    the outcome to [cb] when that is a function. *)
Definition renameScreenshot (node : Node) (filepathOld filepathNew : string)
    (cb : option (option string -> World -> World)) (w : World) : World :=
  let w := (w ++ [FsRename filepathOld filepathNew])%list in
  let err := fs_rename node filepathOld filepathNew in
  let w :=
    match err with
    | Some e =>
        log e (log ("Failed to rename screenshot from '" ++ filepathOld
                    ++ "' to '" ++ filepathNew ++ "':") w)
    | None => w
    end in
  match cb with
  | Some k => k err w
  | None => w
  end.

Definition handleEventRunnerScreenshot (node : Node) (this : ErrorshotReporter)
    (screenshot : Screenshot) (w : World) : result (bool * World) :=
  let (ok, w) := screenshotHasRequiredProperties screenshot w in
  if negb ok then Ok (false, w)
  else
    name <- prop (filename screenshot) ;;
    let filepathOld := buildScreenshotFilepath node this name in
    newName <- getScreenshotName this screenshot ;;
    let filepathNew := buildScreenshotFilepath node this newName in
    let w := renameScreenshot node filepathOld filepathNew None w in
    Ok (true, w).

(** The calls of [fs.rename] recorded in a world. *)
Definition renameCalls (w : World) : list (string * string) :=
  flat_map
    (fun e => match e with FsRename a b => [(a, b)] | ConsoleLog _ => [] end) w.

(** ** The earlier revision of lib/wdio-errorshot-reporter.js

    The sources hold a second, earlier revision of the reporter.  It has
    no search over [browsers] and no sentinel, another default template,
    and a handler without [return true]; its other methods are those
    above. *)

Module Earlier.

Section Logger.

(** [require('./helpers/log.js')], the logger this revision writes to. *)
Variable log : string -> World -> World.

Definition getCapabilitiesFromScreenshotName (filename : string) : string :=
  match matchUnderscoreGroup filename with
  | Some (_, group1) => group1
  | None => ""
  end.

Definition defaultFormat : string := "%capId%_%parent%-%title%_%timestamp%".

(** Reading [reporterOptions.errorshotReporter.template] raises when one
    of the two objects is missing; the diagnostic is written before. *)
Definition getOptionFilenameTemplate (config : Config) (w : World)
  : result string * World :=
  let missing :=
    match reporterOptions config with
    | None => true
    | Some options =>
        match errorshotReporter options with
        | None => true
        | Some reporter => negb (truthy (template reporter))
        end
    end in
  let w := if missing then log "No template name defined in the configs." w else w in
  (options <- prop (reporterOptions config) ;;
   reporter <- prop (errorshotReporter options) ;;
   match template reporter with
   | Some t => if truthy (Some t) then Ok t else Ok defaultFormat
   | None => Ok defaultFormat
   end,
   w).

Definition screenshotHasRequiredProperties (screenshot : Screenshot) (w : World)
  : bool * World :=
  (hasRequiredProperties screenshot,
   if negb (hasRequiredProperties screenshot)
   then log "Failed to rename screenshot, falling back to default behaviour!" w
   else w).

Definition getPlaceholderLookup (screenshot : Screenshot) : result Placeholders :=
  name <- prop (filename screenshot) ;;
  let browserName := getCapabilitiesFromScreenshotName name in
  date <- prop (time screenshot) ;;
  parentText <- prop (parent screenshot) ;;
  titleText <- prop (title screenshot) ;;
  Ok {| capId := browserName;
        browser := browserName;
        browserName := browserName;
        timestamp := replaceAll (reChar ":") (fun _ => "-") (toJSON date);
        parent_ := slugify parentText;
        title_ := slugify titleText |}.

Definition replacefilenameTemplatePlaceholders (this : ErrorshotReporter)
    (screenshot : Screenshot) : result string :=
  placeholders <- getPlaceholderLookup screenshot ;;
  Ok (resolveTemplate placeholders (filenameTemplate this)).

Definition getScreenshotName (this : ErrorshotReporter) (screenshot : Screenshot)
  : result string :=
  name <- replacefilenameTemplatePlaceholders this screenshot ;;
  Ok (name ++ ".png").

Definition getScreenshotFilepath (node : Node) (this : ErrorshotReporter)
    (filename : string) : string :=
  path_join node (screenshotPath (config this)) filename.

Definition renameScreenshot (node : Node) (filepathOld filepathNew : string)
    (w : World) : World :=
  let w := (w ++ [FsRename filepathOld filepathNew])%list in
  match fs_rename node filepathOld filepathNew with
  | Some e => log ("Failed to rename screenshot: " ++ e) w
  | None => w
  end.

(** The handler returns [false] or, falling off its end, [undefined]
    ([None]). *)
Definition handleEventRunnerScreenshot (node : Node) (this : ErrorshotReporter)
    (screenshot : Screenshot) (w : World) : result (option bool * World) :=
  let (ok, w) := screenshotHasRequiredProperties screenshot w in
  if negb ok then Ok (Some false, w)
  else
    name <- prop (filename screenshot) ;;
    let filepathOld := getScreenshotFilepath node this name in
    newName <- getScreenshotName this screenshot ;;
    let filepathNew := getScreenshotFilepath node this newName in
    let w := renameScreenshot node filepathOld filepathNew w in
    Ok (None, w).

End Logger.

End Earlier.

(** ** Records as the event bus may deliver them

    [hasOwnProperty] only tells that a property is there.  In this reading
    of the reporter an own property may hold [undefined] or [null], a Date
    may have an invalid time value, and the configuration may lack
    [screenshotPath]; the methods are those of the reporter above, with
    every use of such a value raising as JavaScript does. *)

Module Dynamic.

(** What an own property holds: [undefined], [null], or a value of the
    type the reporter works with. *)
Inductive Held (A : Type) : Type :=
| Undefined
| Null
| Holds (a : A).

Arguments Undefined {A}.
Arguments Null {A}.
Arguments Holds {A} a.

(** A Date: a valid time value with its ISO-8601 text, or an invalid one. *)
Inductive Date : Type :=
| ValidDate (iso : string)
| InvalidDate.

(** [date.toJSON()]: the text, or [null] ([None]) for an invalid Date. *)
Definition toJSON (date : Date) : option string :=
  match date with
  | ValidDate iso => Some iso
  | InvalidDate => None
  end.

Record Screenshot : Type := {
  filename : option (Held string);
  time : option (Held Date);
  parent : option (Held string);
  title : option (Held string)
}.

Record Config : Type := {
  screenshotPath : option string;
  reporterOptions : option ReporterOptions
}.

Record ErrorshotReporter : Type := {
  config : Config;
  filenameTemplate : string;
  isInitialized : bool
}.

(** Reading a property: one the object does not own reads as
    [undefined]. *)
Definition get {A : Type} (o : option (Held A)) : Held A :=
  match o with
  | Some h => h
  | None => Undefined
  end.

(** Calling a method of the value, or handing it to [path.join]:
    [undefined] and [null] raise a [TypeError]. *)
Definition use {A : Type} (h : Held A) : result A :=
  match h with
  | Holds a => Ok a
  | Undefined | Null => Throw TypeError
  end.

Definition getOptionFilenameTemplate (config : Config) : string :=
  match reporterOptions config with
  | None => defaultFilenameTemplate
  | Some options =>
      match errorshotReporter options with
      | None => defaultFilenameTemplate
      | Some reporter =>
          match template reporter with
          | None => defaultFilenameTemplate
          | Some t => if String.eqb t "" then defaultFilenameTemplate else t
          end
      end
  end.

Definition constructor (config : Config) : ErrorshotReporter :=
  {| config := config;
     filenameTemplate := getOptionFilenameTemplate config;
     isInitialized := true |}.

Definition owns {A : Type} (o : option A) : bool :=
  match o with
  | Some _ => true
  | None => false
  end.

Definition hasRequiredProperties (screenshot : Screenshot) : bool :=
  owns (filename screenshot) && owns (time screenshot)
  && owns (parent screenshot) && owns (title screenshot).

Definition screenshotHasRequiredProperties (screenshot : Screenshot) (w : World)
  : bool * World :=
  (hasRequiredProperties screenshot,
   if negb (hasRequiredProperties screenshot)
   then log "Screenshot properties do not match." w
   else w).

(** [filename.match], [time.toJSON().replace] and [text.toString()] each
    raise on a value they cannot be called on. *)
Definition getPlaceholderLookup (screenshot : Screenshot) : result Placeholders :=
  name <- use (get (filename screenshot)) ;;
  let browserName := getBrowserFromScreenshotName name in
  date <- use (get (time screenshot)) ;;
  json <- prop (toJSON date) ;;
  parentText <- use (get (parent screenshot)) ;;
  titleText <- use (get (title screenshot)) ;;
  Ok {| capId := browserName;
        browser := browserName;
        browserName := browserName;
        timestamp := replaceAll (reChar ":") (fun _ => "-") json;
        parent_ := slugify parentText;
        title_ := slugify titleText |}.

Definition replaceFilenameTemplatePlaceholders (this : ErrorshotReporter)
    (screenshot : Screenshot) : result string :=
  placeholders <- getPlaceholderLookup screenshot ;;
  Ok (resolveTemplate placeholders (filenameTemplate this)).

Definition getScreenshotName (this : ErrorshotReporter) (screenshot : Screenshot)
  : result string :=
  name <- replaceFilenameTemplatePlaceholders this screenshot ;;
  Ok (name ++ ".png").

(** [path.join] raises a [TypeError] on an argument that is not a
    string. *)
Definition buildScreenshotFilepath (node : Node) (this : ErrorshotReporter)
    (filename : Held string) : result string :=
  directory <- prop (screenshotPath (config this)) ;;
  name <- use filename ;;
  Ok (path_join node directory name).

(** The handler, with the world it leaves behind also when it raises. *)
Definition handleEventRunnerScreenshot (node : Node) (this : ErrorshotReporter)
    (screenshot : Screenshot) (w : World) : result bool * World :=
  let (ok, w) := screenshotHasRequiredProperties screenshot w in
  if negb ok then (Ok false, w)
  else
    match
      (filepathOld <- buildScreenshotFilepath node this (get (filename screenshot)) ;;
       newName <- getScreenshotName this screenshot ;;
       filepathNew <- buildScreenshotFilepath node this (Holds newName) ;;
       Ok (filepathOld, filepathNew))
    with
    | Ok (filepathOld, filepathNew) =>
        (Ok true, renameScreenshot node filepathOld filepathNew None w)
    | Throw e => (Throw e, w)
    end.

(** The four properties hold values the naming can work with: strings for
    the file name and the two labels, and a valid Date. *)
Definition usable (screenshot : Screenshot) : bool :=
  match filename screenshot, time screenshot, parent screenshot, title screenshot with
  | Some (Holds _), Some (Holds (ValidDate _)), Some (Holds _), Some (Holds _) => true
  | _, _, _, _ => false
  end.

End Dynamic.

(** A record and a reporter of the typed reading, as the event bus and
    [wdio.conf.js] hold them. *)
Definition dynamicScreenshot (s : Screenshot) : Dynamic.Screenshot :=
  {| Dynamic.filename := option_map Dynamic.Holds (filename s);
     Dynamic.time :=
       option_map (fun d => Dynamic.Holds (Dynamic.ValidDate (toJSON d))) (time s);
     Dynamic.parent := option_map Dynamic.Holds (parent s);
     Dynamic.title := option_map Dynamic.Holds (title s) |}.

Definition dynamicReporter (this : ErrorshotReporter) : Dynamic.ErrorshotReporter :=
  {| Dynamic.config :=
       {| Dynamic.screenshotPath := Some (screenshotPath (config this));
          Dynamic.reporterOptions := reporterOptions (config this) |};
     Dynamic.filenameTemplate := filenameTemplate this;
     Dynamic.isInitialized := isInitialized this |}.

(** ** Vocabulary of the properties *)

(** A match is a non-empty prefix of the input. *)
Definition Consuming (re : Matcher) : Prop :=
  forall s m rest, re s = Some (m, rest) -> s = m ++ rest /\ m <> "".

(** The code units of a slug: [[a-z0-9_]] and the delimiter. *)
Definition isSlugChar (c : ascii) : bool := isLowerWordChar c || isDash c.

(** Not one of the upper-case letters [A-Z]. *)
Definition notUpper (c : ascii) : bool := negb (isUpper c).

(** What the function returns once the search over [browsers] is taken. *)
Definition fallbackName (filename : string) : string :=
  match searchBrowsers filename with
  | Some b => b
  | None => "unknown_browser"
  end.

(** A code unit the lazy group runs over on its way to the next
    underscore: neither an underscore nor a line terminator. *)
Definition isGroupChar (c : ascii) : bool :=
  negb (Ascii.eqb c "_") && negb (isLineTerminator c).

(** The configurations that supply no template string. *)
Inductive NoTemplate : Config -> Prop :=
| no_reporterOptions path :
    NoTemplate {| screenshotPath := path; reporterOptions := None |}
| no_errorshotReporter path :
    NoTemplate {| screenshotPath := path;
                  reporterOptions := Some {| errorshotReporter := None |} |}
| no_template path :
    NoTemplate {| screenshotPath := path;
                  reporterOptions :=
                    Some {| errorshotReporter := Some {| template := None |} |} |}
| empty_template path :
    NoTemplate {| screenshotPath := path;
                  reporterOptions :=
                    Some {| errorshotReporter := Some {| template := Some "" |} |} |}.

(** What [time.toJSON().replace(/:/g, '-')] does to one code unit. *)
Definition colonToDash (c : ascii) : ascii :=
  if Ascii.eqb c ":" then "-"%char else c.

(** The string has a substring that matches [%\w+%]. *)
Definition hasToken (t : string) : Prop :=
  exists before key after,
    t = before ++ "%" ++ key ++ "%" ++ after
    /\ key <> ""
    /\ forallString isWordChar key = true.

Definition notUnderscore (c : ascii) : bool := negb (Ascii.eqb c "_").

Definition notLineTerminator (c : ascii) : bool := negb (isLineTerminator c).

Fixpoint filterString (p : ascii -> bool) (s : string) : string :=
  match s with
  | EmptyString => EmptyString
  | String c s' => if p c then String c (filterString p s') else filterString p s'
  end.

(** The word characters of a string, in their order. *)
Definition wordChars (s : string) : string := filterString isWordChar s.

(** The shape of a slug: code units [[a-z0-9_-]], no dash at either end
    and no two dashes in a row. *)
Definition isSlug (s : string) : bool :=
  forallString isSlugChar s
  && negb (startsWith s "-")
  && negb (endsWith s "-")
  && negb (includes s "--").

(** ** Fixtures of the unit tests *)

Definition testConfig : Config :=
  {| screenshotPath := "errorShots";
     reporterOptions :=
       Some {| errorshotReporter :=
                 Some {| template := Some "%capId%_%timestamp%_%parent%-%title%" |} |} |}.

Definition testDate : Date := {| toJSON := "2018-03-04T05:06:07.089Z" |}.

Definition testScreenshot (name parentText titleText : string) : Screenshot :=
  {| filename := Some name;
     time := Some testDate;
     parent := Some parentText;
     title := Some titleText |}.

Definition testPlaceholders : Placeholders :=
  {| capId := "chrome"; browser := "chrome"; browserName := "chrome";
     timestamp := "2018-03-04T05-06-07.089Z";
     parent_ := "parent"; title_ := "title" |}.

Definition notExistingConfig : Config :=
  {| screenshotPath := "errorShots";
     reporterOptions :=
       Some {| errorshotReporter :=
                 Some {| template := Some "%capId%_%notexisting%_%parent%-%title%" |} |} |}.

(** A logger that hands its message to [console.log]. *)
Definition consoleLog (message : string) (w : World) : World :=
  (w ++ [ConsoleLog message])%list.

Definition testNode (outcome : option string) : Node :=
  {| path_join := fun directory name => directory ++ "/" ++ name;
     fs_rename := fun _ _ => outcome |}.

Definition dynamicTestReporter : Dynamic.ErrorshotReporter :=
  Dynamic.constructor
    {| Dynamic.screenshotPath := Some "errorShots"; Dynamic.reporterOptions := None |}.

(** A record that owns the four properties, with an invalid Date. *)
Definition invalidDateScreenshot : Dynamic.Screenshot :=
  {| Dynamic.filename := Some (Dynamic.Holds "ERROR_chrome_12345_1337.png");
     Dynamic.time := Some (Dynamic.Holds Dynamic.InvalidDate);
     Dynamic.parent := Some (Dynamic.Holds "parent text here");
     Dynamic.title := Some (Dynamic.Holds "title text here") |}.

(** A record that owns the four properties, [title] holding [undefined]. *)
Definition undefinedTitleScreenshot : Dynamic.Screenshot :=
  {| Dynamic.filename := Some (Dynamic.Holds "ERROR_chrome_12345_1337.png");
     Dynamic.time := Some (Dynamic.Holds (Dynamic.ValidDate "2018-03-04T05:06:07.089Z"));
     Dynamic.parent := Some (Dynamic.Holds "parent text here");
     Dynamic.title := Some Dynamic.Undefined |}.

(** * Properties *)

(** ** The cases of the unit tests *)

Example slugify_lorem_ipsum : slugify "lorem ipsum" = "lorem-ipsum".
Proof. reflexivity. Qed.

Example slugify_many_spaces : slugify "lorem   ipsum" = "lorem-ipsum".
Proof. reflexivity. Qed.

Example slugify_mixed_case : slugify "lOrEm IpSuM" = "lorem-ipsum".
Proof. reflexivity. Qed.

Example slugify_edges : slugify "  --Hello,  World! -- _x-- " = "hello-world-_x".
Proof. reflexivity. Qed.

Example slugify_empty : slugify "" = "" /\ slugify " ?! " = "".
Proof. split; reflexivity. Qed.

Example browser_default_chrome :
  getBrowserFromScreenshotName "ERROR_chrome_12345_67890.png" = "chrome".
Proof. reflexivity. Qed.

Example browser_default_firefox :
  getBrowserFromScreenshotName "ERROR_firefox_12345_67890.png" = "firefox".
Proof. reflexivity. Qed.

Example browser_default_custom :
  getBrowserFromScreenshotName "ERROR_custom-browser-name_12345_67890.png"
  = "custom-browser-name".
Proof. reflexivity. Qed.

Example browser_short_chrome :
  getBrowserFromScreenshotName "ERROR_chrome.png" = "chrome".
Proof. reflexivity. Qed.

Example browser_short_firefox :
  getBrowserFromScreenshotName "ERROR_firefox.png" = "firefox".
Proof. reflexivity. Qed.

Example browser_no_prefix_custom :
  getBrowserFromScreenshotName "custom-browser-name_12345_67890.png"
  = "unknown_browser".
Proof. reflexivity. Qed.

Example browser_short_unknown :
  getBrowserFromScreenshotName "ERROR_asdas.png" = "unknown_browser".
Proof. reflexivity. Qed.

Example browser_no_prefix_chrome :
  getBrowserFromScreenshotName "chrome_12345_67890.png" = "chrome".
Proof. reflexivity. Qed.

Example lookup_slugifies :
  getPlaceholderLookup
    (testScreenshot "ERROR_chrome_12345_67890.png" "parent text here" "title text here")
  = Ok {| capId := "chrome"; browser := "chrome"; browserName := "chrome";
          timestamp := "2018-03-04T05-06-07.089Z";
          parent_ := "parent-text-here"; title_ := "title-text-here" |}.
Proof. reflexivity. Qed.

Example replace_all_placeholders :
  replaceFilenameTemplatePlaceholders (constructor testConfig)
    (testScreenshot "ERROR_chrome_12345_67890.png" "parent text here" "title text here")
  = Ok "chrome_2018-03-04T05-06-07.089Z_parent-text-here-title-text-here".
Proof. reflexivity. Qed.

Example screenshot_name_png :
  getScreenshotName (constructor testConfig)
    (testScreenshot "ERROR_chrome_12345_67890.png" "parent" "title")
  = Ok "chrome_2018-03-04T05-06-07.089Z_parent-title.png".
Proof. reflexivity. Qed.

(** ** Strings *)

Lemma append_empty_r (s : string) : s ++ "" = s.
Proof. induction s as [|c s IH]; simpl; [reflexivity | now rewrite IH]. Qed.

Lemma append_assoc (a b c : string) : (a ++ b) ++ c = a ++ (b ++ c).
Proof. induction a as [|x a IH]; simpl; [reflexivity | now rewrite IH]. Qed.

Lemma length_append (a b : string) :
  String.length (a ++ b) = String.length a + String.length b.
Proof. induction a as [|x a IH]; simpl; [reflexivity | now rewrite IH]. Qed.

Lemma forallString_append (p : ascii -> bool) (a b : string) :
  forallString p (a ++ b) = forallString p a && forallString p b.
Proof.
  induction a as [|x a IH]; simpl; [reflexivity|].
  rewrite IH. now rewrite andb_assoc.
Qed.

Lemma forallString_impl (p q : ascii -> bool) (s : string) :
  (forall c, p c = true -> q c = true) ->
  forallString p s = true -> forallString q s = true.
Proof.
  intros Hpq. induction s as [|c s IH]; simpl; [reflexivity|].
  intros H. apply andb_true_iff in H as [Hc Hs].
  rewrite (Hpq _ Hc). simpl. now apply IH.
Qed.

Lemma startsWith_append (s rest : string) : startsWith (s ++ rest) s = true.
Proof.
  induction s as [|c s IH]; simpl.
  - now destruct rest.
  - now rewrite Ascii.eqb_refl.
Qed.

Lemma startsWith_char (c d : ascii) (s : string) :
  startsWith (String c s) (String d "") = Ascii.eqb c d.
Proof. simpl. destruct s; now rewrite andb_true_r. Qed.

(** ** Greedy runs *)

Lemma span_append (p : ascii -> bool) (s m rest : string) :
  span p s = (m, rest) -> s = m ++ rest.
Proof.
  revert m rest. induction s as [|c s IH]; simpl; intros m rest H.
  - now inversion H.
  - destruct (p c).
    + destruct (span p s) as [m' rest'] eqn:E. inversion H; subst.
      simpl. f_equal. now apply IH.
    + now inversion H.
Qed.

Lemma span_forall (p : ascii -> bool) (s m rest : string) :
  span p s = (m, rest) -> forallString p m = true.
Proof.
  revert m rest. induction s as [|c s IH]; simpl; intros m rest H.
  - now inversion H.
  - destruct (p c) eqn:Hc.
    + destruct (span p s) as [m' rest'] eqn:E. inversion H; subst.
      simpl. rewrite Hc. simpl. now apply (IH m' rest).
    + now inversion H.
Qed.

(** A greedy run stops only at the end of the input or in front of a code
    unit outside the class. *)
Lemma span_maximal (p : ascii -> bool) (s m rest : string) :
  span p s = (m, rest) ->
  match rest with
  | EmptyString => True
  | String c _ => p c = false
  end.
Proof.
  revert m rest. induction s as [|c s IH]; simpl; intros m rest H.
  - now inversion H.
  - destruct (p c) eqn:Hc.
    + destruct (span p s) as [m' rest'] eqn:E. inversion H; subst.
      now apply (IH m').
    + inversion H; subst. exact Hc.
Qed.

Lemma span_all (p : ascii -> bool) (s : string) :
  forallString p s = true -> span p s = (s, "").
Proof.
  induction s as [|c s IH]; simpl; [reflexivity|].
  intros H. apply andb_true_iff in H as [Hc Hs].
  rewrite Hc, (IH Hs). reflexivity.
Qed.

Lemma span_stop (p : ascii -> bool) (m : string) (c : ascii) (rest : string) :
  forallString p m = true -> p c = false ->
  span p (m ++ String c rest) = (m, String c rest).
Proof.
  intros Hm Hc. induction m as [|x m IH]; simpl.
  - now rewrite Hc.
  - simpl in Hm. apply andb_true_iff in Hm as [Hx Hm].
    rewrite Hx, (IH Hm). reflexivity.
Qed.

(** ** Matchers consume input *)

Lemma reRun_inv (p : ascii -> bool) (s m rest : string) :
  reRun p s = Some (m, rest) ->
  span p s = (m, rest) /\ m <> "".
Proof.
  unfold reRun. destruct (span p s) as [m' rest'] eqn:E.
  destruct m'; intros H; inversion H; subst. split; [reflexivity | discriminate].
Qed.

Lemma reRun_None (p : ascii -> bool) (s : string) :
  reRun p s = None ->
  match s with
  | EmptyString => True
  | String c _ => p c = false
  end.
Proof.
  unfold reRun. destruct s as [|c s]; simpl; [trivial|].
  destruct (p c); [|reflexivity].
  destruct (span p s); discriminate.
Qed.

Lemma reRun_consuming (p : ascii -> bool) : Consuming (reRun p).
Proof.
  intros s m rest H. apply reRun_inv in H as [H Hm].
  split; [now apply (span_append p) | exact Hm].
Qed.

Lemma reDashDashRun_consuming : Consuming reDashDashRun.
Proof.
  intros s m rest H. destruct s as [|c s]; simpl in H; [discriminate|].
  destruct (isDash c); [|discriminate].
  destruct (reDashRun s) as [[m' rest']|] eqn:E; inversion H; subst.
  apply reRun_consuming in E as [E _]. subst s.
  split; [reflexivity | discriminate].
Qed.

Lemma reChar_consuming (d : ascii) : Consuming (reChar d).
Proof.
  intros s m rest H. destruct s as [|c s]; simpl in H; [discriminate|].
  destruct (Ascii.eqb c d); inversion H; subst.
  split; [reflexivity | discriminate].
Qed.

Lemma rePlaceholder_consuming : Consuming rePlaceholder.
Proof.
  intros s m rest H. destruct s as [|c s]; simpl in H; [discriminate|].
  destruct (Ascii.eqb c "%"); [|discriminate].
  destruct (reRun isWordChar s) as [[w r]|] eqn:E; [|discriminate].
  destruct r as [|d r]; [discriminate|].
  destruct (Ascii.eqb d "%"); inversion H; subst.
  apply reRun_consuming in E as [E _]. subst s.
  split; [|discriminate].
  simpl. f_equal. rewrite append_assoc. reflexivity.
Qed.


(** ** Global replacement *)

Section ReplaceAll.

Variable re : Matcher.
Variable fn : string -> string.
Hypothesis re_consuming : Consuming re.

Lemma consuming_shorter (s m rest : string) :
  re s = Some (m, rest) -> String.length rest < String.length s.
Proof.
  intros H. apply re_consuming in H as [-> Hm].
  rewrite length_append. destruct m; [contradiction | simpl; lia].
Qed.

(** Any fuel from the length of the input on gives the same result. *)
Lemma replaceGlobal_fuel (fuel1 fuel2 : nat) (s : string) :
  String.length s <= fuel1 -> String.length s <= fuel2 ->
  replaceGlobal fuel1 re fn s = replaceGlobal fuel2 re fn s.
Proof.
  revert fuel2 s. induction fuel1 as [|fuel1 IH]; intros fuel2 s H1 H2.
  - destruct s; [|simpl in H1; lia]. now destruct fuel2.
  - destruct fuel2 as [|fuel2].
    + destruct s; [reflexivity | simpl in H2; lia].
    + destruct s as [|c s]; [reflexivity|]. simpl.
      destruct (re (String c s)) as [[m rest]|] eqn:E.
      * apply consuming_shorter in E. simpl in *.
        f_equal. apply IH; lia.
      * simpl in *. f_equal. apply IH; lia.
Qed.

Lemma replaceAll_empty : replaceAll re fn "" = "".
Proof. reflexivity. Qed.

Lemma replaceAll_match (s m rest : string) :
  re s = Some (m, rest) ->
  replaceAll re fn s = fn m ++ replaceAll re fn rest.
Proof.
  intros E. unfold replaceAll.
  pose proof (consuming_shorter _ _ _ E) as Hlt.
  destruct s as [|c s]; [simpl in Hlt; lia|].
  simpl. rewrite E. f_equal.
  simpl in Hlt. apply replaceGlobal_fuel; lia.
Qed.

Lemma replaceAll_skip (c : ascii) (s : string) :
  re (String c s) = None ->
  replaceAll re fn (String c s) = String c (replaceAll re fn s).
Proof. intros E. unfold replaceAll. simpl. now rewrite E. Qed.

(** Induction along the scan of the input. *)
Lemma replaceAll_scan (P : string -> string -> Prop) :
  P "" "" ->
  (forall s m rest, re s = Some (m, rest) ->
     P rest (replaceAll re fn rest) -> P s (fn m ++ replaceAll re fn rest)) ->
  (forall c s, re (String c s) = None ->
     P s (replaceAll re fn s) -> P (String c s) (String c (replaceAll re fn s))) ->
  forall s, P s (replaceAll re fn s).
Proof.
  intros Hnil Hmatch Hskip s.
  remember (String.length s) as n eqn:Hn.
  assert (Hle : String.length s <= n) by lia. clear Hn.
  revert s Hle. induction n as [|n IH]; intros s Hle.
  - destruct s; [exact Hnil | simpl in Hle; lia].
  - destruct s as [|c s]; [exact Hnil|].
    destruct (re (String c s)) as [[m rest]|] eqn:E.
    + rewrite (replaceAll_match _ _ _ E). apply Hmatch; [exact E|].
      apply IH. apply consuming_shorter in E. simpl in *. lia.
    + rewrite (replaceAll_skip _ _ E). apply Hskip; [exact E|].
      apply IH. simpl in Hle. lia.
Qed.

(** An input without a match is returned as it is. *)
Lemma replaceAll_no_match (s : string) :
  test re s = false -> replaceAll re fn s = s.
Proof.
  induction s as [|c s IH]; [reflexivity|].
  simpl. destruct (re (String c s)) eqn:E; [discriminate|].
  intros H. rewrite (replaceAll_skip _ _ E). f_equal. now apply IH.
Qed.

(** A property of code units that the input and every replacement have
    holds of the result. *)
Lemma replaceAll_forall (p : ascii -> bool) :
  (forall m, forallString p (fn m) = true) ->
  forall s, forallString p s = true ->
  forallString p (replaceAll re fn s) = true.
Proof.
  intros Hfn.
  apply (replaceAll_scan
           (fun s out => forallString p s = true -> forallString p out = true)).
  - trivial.
  - intros s m rest E IH Hs.
    apply re_consuming in E as [-> _].
    rewrite forallString_append in Hs. apply andb_true_iff in Hs as [_ Hrest].
    rewrite forallString_append, Hfn. simpl. now apply IH.
  - intros c s _ IH H. simpl in *.
    apply andb_true_iff in H as [Hc Hs]. rewrite Hc. simpl. now apply IH.
Qed.

End ReplaceAll.

(** ** Substrings *)

Lemma startsWith_prefix (a b x : string) :
  startsWith a x = true -> startsWith (a ++ b) x = true.
Proof.
  revert x. induction a as [|c a IH]; intros [|d x] H.
  - now destruct b.
  - discriminate.
  - reflexivity.
  - simpl in *. apply andb_true_iff in H as [Hc Hx].
    rewrite Hc. simpl. now apply IH.
Qed.

Lemma includes_prefix (a b x : string) :
  includes (a ++ b) x = false -> includes a x = false.
Proof.
  induction a as [|c a IH].
  - simpl. destruct x; [|reflexivity]. now destruct b.
  - change (includes (String c a ++ b) x)
      with (startsWith (String c a ++ b) x || includes (a ++ b) x).
    change (includes (String c a) x)
      with (startsWith (String c a) x || includes a x).
    intros H. apply orb_false_iff in H as [H1 H2].
    rewrite (IH H2), orb_false_r.
    destruct (startsWith (String c a) x) eqn:E; [|reflexivity].
    now rewrite (startsWith_prefix _ b _ E) in H1.
Qed.

Lemma includes_suffix (a b x : string) :
  includes (a ++ b) x = false -> includes b x = false.
Proof.
  induction a as [|c a IH]; [trivial|].
  change (includes (String c a ++ b) x)
    with (startsWith (String c a ++ b) x || includes (a ++ b) x).
  intros H. apply orb_false_iff in H as [_ H]. now apply IH.
Qed.

(** ** slugify *)

Lemma toLowerCaseChar_notUpper (c : ascii) : notUpper (toLowerCaseChar c) = true.
Proof. destruct c as [[|] [|] [|] [|] [|] [|] [|] [|]]; reflexivity. Qed.

Lemma toLowerCase_notUpper (s : string) :
  forallString notUpper (toLowerCase s) = true.
Proof.
  unfold toLowerCase. induction s as [|c s IH]; simpl; [reflexivity|].
  now rewrite toLowerCaseChar_notUpper, IH.
Qed.

Lemma isSlugChar_intro (c : ascii) :
  isNonWordNonDash c = false -> notUpper c = true -> isSlugChar c = true.
Proof.
  unfold isNonWordNonDash, notUpper, isSlugChar, isLowerWordChar, isWordChar.
  destruct (isUpper c); simpl; [discriminate|].
  intros H _. now apply negb_false_iff in H.
Qed.

(** After [/[^\w-]+/g] is replaced by nothing, only word characters and
    dashes are left. *)
Lemma removeNonWord_chars (s : string) :
  forallString (fun c => negb (isNonWordNonDash c))
    (replaceAll reNonWordRun (fun _ => "") s) = true.
Proof.
  apply (replaceAll_scan reNonWordRun (fun _ => "") (reRun_consuming _)
           (fun _ out => forallString (fun c => negb (isNonWordNonDash c)) out = true)).
  - reflexivity.
  - intros ? ? ? _ IH. exact IH.
  - intros c t E IH. simpl. apply reRun_None in E. now rewrite E, IH.
Qed.

Lemma forallString_and (p q : ascii -> bool) (s : string) :
  forallString p s = true -> forallString q s = true ->
  forallString (fun c => p c && q c) s = true.
Proof.
  induction s as [|c s IH]; simpl; [reflexivity|].
  intros Hp Hq.
  apply andb_true_iff in Hp as [Hp1 Hp2]. apply andb_true_iff in Hq as [Hq1 Hq2].
  now rewrite Hp1, Hq1, IH.
Qed.

Lemma reDashDashRun_inv (s m rest : string) :
  reDashDashRun s = Some (m, rest) ->
  startsWith s "-" = true /\ startsWith rest "-" = false.
Proof.
  intros H. destruct s as [|c s]; simpl in H; [discriminate|].
  destruct (isDash c) eqn:Hc; [|discriminate].
  destruct (reDashRun s) as [[m' rest']|] eqn:E; inversion H; subst.
  split.
  - rewrite startsWith_char. exact Hc.
  - apply reRun_inv in E as [E _]. apply span_maximal in E.
    destruct rest as [|d rest]; [reflexivity|].
    rewrite startsWith_char. exact E.
Qed.

Lemma reDashDashRun_None (c : ascii) (s : string) :
  reDashDashRun (String c s) = None ->
  isDash c = true -> startsWith s "-" = false.
Proof.
  simpl. intros H Hc. rewrite Hc in H.
  destruct (reDashRun s) as [[m rest]|] eqn:E; [discriminate|].
  apply reRun_None in E. destruct s as [|d s]; [reflexivity|].
  rewrite startsWith_char. exact E.
Qed.

(** After [/--+/g] is replaced by one dash, no two dashes are adjacent. *)
Lemma collapseDashes_single (s : string) :
  includes (replaceAll reDashDashRun (fun _ => "-") s) "--" = false.
Proof.
  enough (H : includes (replaceAll reDashDashRun (fun _ => "-") s) "--" = false
              /\ (startsWith (replaceAll reDashDashRun (fun _ => "-") s) "-" = true ->
                  startsWith s "-" = true)) by apply H.
  apply (replaceAll_scan reDashDashRun (fun _ => "-") reDashDashRun_consuming
           (fun s out => includes out "--" = false
                         /\ (startsWith out "-" = true -> startsWith s "-" = true))).
  - split; [reflexivity | discriminate].
  - intros t m rest E [IH1 IH2].
    apply reDashDashRun_inv in E as [Ht Hrest]. split; [|intros _; exact Ht].
    set (out := replaceAll reDashDashRun (fun _ => "-") rest) in *.
    change (includes ("-" ++ out) "--")
      with (startsWith (String "-" out) "--" || includes out "--").
    rewrite IH1, orb_false_r.
    change (startsWith (String "-" out) "--") with (true && startsWith out "-").
    simpl. destruct (startsWith out "-") eqn:Hout; [|reflexivity].
    rewrite (IH2 eq_refl) in Hrest. discriminate.
  - intros c t E [IH1 IH2].
    set (out := replaceAll reDashDashRun (fun _ => "-") t) in *. split.
    + change (includes (String c out) "--")
        with (startsWith (String c out) "--" || includes out "--").
      rewrite IH1, orb_false_r.
      change (startsWith (String c out) "--") with (isDash c && startsWith out "-").
      destruct (isDash c) eqn:Hc; [|reflexivity]. simpl.
      destruct (startsWith out "-") eqn:Hout; [|reflexivity].
      rewrite (reDashDashRun_None _ _ E Hc) in IH2. symmetry. now apply IH2.
    + rewrite !startsWith_char. trivial.
Qed.

(** [/^-+/] replaced by nothing leaves a suffix that does not begin with a
    dash. *)
Lemma trimStart_spec (s : string) :
  exists d, s = d ++ replaceAtStart reDashRun (fun _ => "") s
            /\ startsWith (replaceAtStart reDashRun (fun _ => "") s) "-" = false.
Proof.
  unfold replaceAtStart. destruct (reDashRun s) as [[m rest]|] eqn:E.
  - apply reRun_inv in E as [E _]. exists m. simpl. split.
    + now apply (span_append isDash).
    + apply span_maximal in E. destruct rest as [|c rest]; [reflexivity|].
      rewrite startsWith_char. exact E.
  - exists "". split; [reflexivity|].
    apply reRun_None in E. destruct s as [|c s]; [reflexivity|].
    rewrite startsWith_char. exact E.
Qed.

Lemma reDashRunToEnd_all (s : string) :
  s <> "" -> forallString isDash s = true -> reDashRunToEnd s = Some (s, "").
Proof.
  intros Hs H. unfold reDashRunToEnd, reDashRun, reRun.
  rewrite (span_all _ _ H). destruct s; [contradiction | reflexivity].
Qed.

Lemma reDashRunToEnd_inv (s m rest : string) :
  reDashRunToEnd s = Some (m, rest) ->
  s = m /\ rest = "" /\ forallString isDash m = true.
Proof.
  unfold reDashRunToEnd. destruct (reDashRun s) as [[m' rest']|] eqn:E; [|discriminate].
  destruct rest'; intros H; inversion H; subst.
  apply reRun_inv in E as [E _]. split; [|split]; [|reflexivity|].
  - apply span_append in E. now rewrite append_empty_r in E.
  - now apply span_forall in E.
Qed.

(** [/-+$/] replaced by nothing leaves a prefix that does not end with a
    dash; what is cut off is dashes only. *)
Lemma trimEnd_spec (s : string) :
  exists d, s = replaceFirst reDashRunToEnd (fun _ => "") s ++ d
            /\ forallString isDash d = true
            /\ endsWith (replaceFirst reDashRunToEnd (fun _ => "") s) "-" = false.
Proof.
  induction s as [|c s IH].
  - exists "". now split.
  - cbn [replaceFirst]. destruct (reDashRunToEnd (String c s)) as [[m rest]|] eqn:E.
    + apply reDashRunToEnd_inv in E as (Hm1 & Hrest & Hm). subst m rest.
      exists (String c s). split; [reflexivity | split; [exact Hm | reflexivity]].
    + destruct IH as (d & Hs & Hd & Hend).
      set (p := replaceFirst reDashRunToEnd (fun _ => "") s) in *.
      exists d. split; [simpl; now f_equal | split; [exact Hd|]].
      change (endsWith (String c p) "-")
        with (String.eqb (String c p) "-" || endsWith p "-").
      rewrite Hend, orb_false_r.
      destruct (String.eqb_spec (String c p) "-") as [Heq|]; [|reflexivity].
      inversion Heq as [[Hc Hp]]. rewrite Hp in Hs. simpl in Hs. subst.
      rewrite reDashRunToEnd_all in E; [discriminate | discriminate |].
      simpl. exact Hd.
Qed.

(** C6. For every string [text], [slugify text] holds only lower-case word
    characters ([[a-z0-9_]]) and the delimiter [-]; it neither begins nor
    ends with the delimiter and has no two delimiters in a row. *)
Theorem slugify_shape (text : string) :
  forallString isSlugChar (slugify text) = true
  /\ startsWith (slugify text) "-" = false
  /\ endsWith (slugify text) "-" = false
  /\ includes (slugify text) "--" = false.
Proof.
  unfold slugify, slugifyWith.
  set (s1 := replaceAll reWhiteSpaceRun (fun _ => "-") (toLowerCase text)).
  set (s2 := replaceAll reNonWordRun (fun _ => "") s1).
  set (s3 := replaceAll reDashDashRun (fun _ => "-") s2).
  set (s4 := replaceAtStart reDashRun (fun _ => "") s3).
  assert (H1 : forallString notUpper s1 = true).
  { apply (replaceAll_forall _ _ (reRun_consuming _)); [reflexivity|].
    apply toLowerCase_notUpper. }
  assert (H2 : forallString isSlugChar s2 = true).
  { apply (forallString_impl (fun c => negb (isNonWordNonDash c) && notUpper c)).
    - intros c Hc. apply andb_true_iff in Hc as [Hw Hu].
      apply isSlugChar_intro; [now apply negb_true_iff | exact Hu].
    - apply forallString_and; [apply removeNonWord_chars|].
      apply (replaceAll_forall _ _ (reRun_consuming _)); [reflexivity | exact H1]. }
  assert (H3 : forallString isSlugChar s3 = true).
  { apply (replaceAll_forall _ _ reDashDashRun_consuming); [reflexivity | exact H2]. }
  pose proof (collapseDashes_single s2) as D3. fold s3 in D3.
  destruct (trimStart_spec s3) as (d & E3 & B4). fold s4 in E3, B4.
  destruct (trimEnd_spec s4) as (d' & E4 & _ & T5).
  set (s5 := replaceFirst reDashRunToEnd (fun _ => "") s4) in *.
  rewrite E3, forallString_append in H3. apply andb_true_iff in H3 as [_ H4].
  rewrite E3 in D3. apply includes_suffix in D3.
  rewrite E4, forallString_append in H4. apply andb_true_iff in H4 as [H5 _].
  rewrite E4 in D3. apply includes_prefix in D3.
  repeat split; try assumption.
  destruct (startsWith s5 "-") eqn:B5; [|reflexivity].
  apply (startsWith_prefix _ d') in B5. rewrite <- E4, B4 in B5. discriminate.
Qed.

(** ** Browser name inference *)

Section ForEach.

Variable filename : string.

Let step (browserName : option string) (browser : string) : option string :=
  if includes filename browser then Some browser else browserName.

Lemma forEach_no_match (l : list string) (acc : option string) :
  (forall b, In b l -> includes filename b = false) ->
  fold_left step l acc = acc.
Proof.
  revert acc. induction l as [|x l IH]; intros acc H; [reflexivity|].
  simpl. unfold step at 2. rewrite (H x (or_introl eq_refl)).
  apply IH. intros b Hb. apply H. now right.
Qed.

(** The loop keeps the last entry of the list that the file name
    contains. *)
Lemma forEach_last_match (before after : list string) (b : string)
    (acc : option string) :
  includes filename b = true ->
  (forall b', In b' after -> includes filename b' = false) ->
  fold_left step (before ++ b :: after)%list acc = Some b.
Proof.
  intros Hb Hafter. rewrite fold_left_app. simpl.
  unfold step at 2. rewrite Hb. now apply forEach_no_match.
Qed.

Lemma forEach_result (l : list string) (acc : option string) :
  fold_left step l acc = acc
  \/ exists b, fold_left step l acc = Some b /\ In b l /\ includes filename b = true.
Proof.
  revert acc. induction l as [|x l IH]; intros acc; [now left|].
  simpl. destruct (IH (step acc x)) as [E | (b & E & Hin & Hb)].
  - rewrite E. unfold step. destruct (includes filename x) eqn:Hx; [|now left].
    right. exists x. split; [reflexivity | split; [now left | exact Hx]].
  - right. exists b. split; [exact E | split; [now right | exact Hb]].
Qed.

End ForEach.

Lemma searchBrowsers_None (filename : string) :
  (forall b, In b browsers -> includes filename b = false) ->
  searchBrowsers filename = None.
Proof. intros H. unfold searchBrowsers. now apply forEach_no_match. Qed.

Lemma searchBrowsers_last (filename : string) (before after : list string) (b : string) :
  browsers = (before ++ b :: after)%list ->
  includes filename b = true ->
  (forall b', In b' after -> includes filename b' = false) ->
  searchBrowsers filename = Some b.
Proof.
  intros E Hb Hafter. unfold searchBrowsers. rewrite E.
  now apply forEach_last_match.
Qed.

Lemma searchBrowsers_result (filename : string) :
  searchBrowsers filename = None
  \/ exists b, searchBrowsers filename = Some b /\ In b browsers.
Proof.
  unfold searchBrowsers.
  destruct (forEach_result filename browsers None) as [E | (b & E & Hin & _)].
  - left. exact E.
  - right. now exists b.
Qed.

Lemma browsers_lower (b : string) :
  In b browsers -> forallString notUpper b = true /\ b <> "".
Proof.
  intros H. simpl in H.
  repeat (destruct H as [<- | H]; [split; [reflexivity | discriminate]|]).
  contradiction.
Qed.

Lemma getBrowser_fallback (filename : string) :
  truthy (capture filename) = false \/ startsWith filename "ERROR" = false ->
  getBrowserFromScreenshotName filename = fallbackName filename.
Proof.
  intros H. unfold getBrowserFromScreenshotName, fallbackName, capture in *.
  destruct (matchUnderscoreGroup filename) as [[full group]|]; simpl in *.
  - assert (Hc : negb (negb (String.eqb group ""))
                 || negb (startsWith filename "ERROR") = true).
    { destruct H as [H | H]; rewrite H; [reflexivity | apply orb_true_r]. }
    rewrite Hc.
    destruct (searchBrowsers_result filename) as [E | (b & E & Hin)]; rewrite E.
    + reflexivity.
    + apply browsers_lower in Hin as [_ Hb].
      simpl. apply String.eqb_neq in Hb. now rewrite Hb.
  - destruct (searchBrowsers_result filename) as [E | (b & E & Hin)]; rewrite E.
    + reflexivity.
    + apply browsers_lower in Hin as [_ Hb].
      simpl. apply String.eqb_neq in Hb. now rewrite Hb.
Qed.

Lemma getBrowser_capture (filename group : string) :
  startsWith filename "ERROR" = true ->
  capture filename = Some group ->
  group <> "" ->
  getBrowserFromScreenshotName filename = group.
Proof.
  intros Hp Hc Hg. unfold getBrowserFromScreenshotName, capture in *.
  destruct (matchUnderscoreGroup filename) as [[full g]|]; [|discriminate].
  simpl in Hc. inversion Hc; subst g.
  apply String.eqb_neq in Hg. simpl. rewrite Hg, Hp. simpl. now rewrite Hg.
Qed.

Lemma fallbackName_cases (filename : string) :
  fallbackName filename = "unknown_browser" \/ In (fallbackName filename) browsers.
Proof.
  unfold fallbackName.
  destruct (searchBrowsers_result filename) as [E | (b & E & Hin)]; rewrite E.
  - now left.
  - now right.
Qed.

(** C1. When the file name starts with [ERROR] and [/_(.*?)_/] has a
    non-empty capture, the inferred browser is exactly that capture. *)
Theorem browser_is_capture (filename group : string) :
  startsWith filename "ERROR" = true ->
  capture filename = Some group ->
  group <> "" ->
  getBrowserFromScreenshotName filename = group.
Proof. exact (getBrowser_capture filename group). Qed.

Lemma browser_is_capture_witness :
  startsWith "ERROR_chrome_12345_67890.png" "ERROR" = true
  /\ capture "ERROR_chrome_12345_67890.png" = Some "chrome"
  /\ getBrowserFromScreenshotName "ERROR_chrome_12345_67890.png" = "chrome".
Proof.
  split; [reflexivity | split; [reflexivity|]].
  apply (browser_is_capture "ERROR_chrome_12345_67890.png" "chrome");
    [reflexivity | reflexivity | discriminate].
Defined.

Lemma reLazyGroupUnderscore_group (group rest : string) :
  forallString isGroupChar group = true ->
  reLazyGroupUnderscore (group ++ String "_" rest) = Some (group, rest).
Proof.
  induction group as [|c group IH]; intros H; [reflexivity|].
  simpl in H. apply andb_true_iff in H as [Hc Hg].
  unfold isGroupChar in Hc. apply andb_true_iff in Hc as [Hu Hl].
  apply negb_true_iff in Hu, Hl.
  simpl. rewrite Hu, Hl, (IH Hg). reflexivity.
Qed.

(** The capture is the text between the first two underscores, as long as
    no line terminator stands between them. *)
Lemma capture_between_underscores (before group rest : string) :
  forallString (fun c => negb (Ascii.eqb c "_")) before = true ->
  forallString isGroupChar group = true ->
  capture (before ++ String "_" (group ++ String "_" rest)) = Some group.
Proof.
  intros Hb Hg. unfold capture.
  induction before as [|c before IH].
  - simpl. rewrite (reLazyGroupUnderscore_group _ _ Hg). reflexivity.
  - simpl in Hb. apply andb_true_iff in Hb as [Hc Hb].
    apply negb_true_iff in Hc.
    simpl. rewrite Hc. apply (IH Hb).
Qed.

(** For the names the runner produces, [ERROR_<browser>_<id>_<id>.png], the
    inferred browser is the text between the first two underscores. *)
Corollary browser_of_error_name (group rest : string) :
  group <> "" ->
  forallString isGroupChar group = true ->
  getBrowserFromScreenshotName ("ERROR" ++ String "_" (group ++ String "_" rest)) = group.
Proof.
  intros Hne Hg. apply getBrowser_capture; [reflexivity | | exact Hne].
  now apply (capture_between_underscores "ERROR").
Qed.

(** C2, as amended.  When the capture is empty the search over [browsers]
    decides.  The result is never the empty string.  When the file name
    contains none of the known names it is the sentinel; otherwise it is a
    known name that the file name contains, namely the contained entry
    after which no contained entry follows in the list. *)
Theorem empty_capture_falls_back (filename : string) :
  capture filename = Some "" ->
  getBrowserFromScreenshotName filename <> ""
  /\ ((forall b, In b browsers -> includes filename b = false) ->
      getBrowserFromScreenshotName filename = "unknown_browser")
  /\ ((exists b, In b browsers /\ includes filename b = true) ->
      In (getBrowserFromScreenshotName filename) browsers
      /\ includes filename (getBrowserFromScreenshotName filename) = true)
  /\ (forall before b after,
         browsers = (before ++ b :: after)%list ->
         includes filename b = true ->
         (forall b', In b' after -> includes filename b' = false) ->
         getBrowserFromScreenshotName filename = b).
Proof.
  intros Hc.
  rewrite getBrowser_fallback by (left; now rewrite Hc).
  unfold fallbackName, searchBrowsers. split; [|split; [|split]].
  - destruct (forEach_result filename browsers None) as [E | (b & E & Hin & _)];
      rewrite E; [discriminate | now apply browsers_lower in Hin].
  - intros Hnone. now rewrite forEach_no_match.
  - intros (b & Hin & Hb).
    destruct (forEach_result filename browsers None) as [E | (b' & E & Hin' & Hb')];
      rewrite E; [|now split].
    apply in_split in Hin as (l1 & l2 & Hl). rewrite Hl, fold_left_app in E.
    simpl in E. rewrite Hb in E.
    destruct (forEach_result filename l2 (Some b)) as [E' | (b' & E' & _)];
      rewrite E' in E; discriminate.
  - intros before b after E Hb Hafter. rewrite E.
    now rewrite (forEach_last_match filename before after b None Hb Hafter).
Qed.

Lemma empty_capture_falls_back_witness :
  (capture "ERROR__12345_67890.png" = Some ""
   /\ getBrowserFromScreenshotName "ERROR__12345_67890.png" = "unknown_browser")
  /\ (capture "ERROR__chrome-edge.png" = Some ""
      /\ getBrowserFromScreenshotName "ERROR__chrome-edge.png" = "edge").
Proof.
  split; (split; [reflexivity|]).
  - apply (proj1 (proj2 (empty_capture_falls_back "ERROR__12345_67890.png" eq_refl))).
    intros b Hb. simpl in Hb.
    repeat (destruct Hb as [<- | Hb]; [reflexivity|]). contradiction.
  - apply (proj2 (proj2 (proj2 (empty_capture_falls_back "ERROR__chrome-edge.png" eq_refl)))
             ["chrome"; "firefox"; "ie"] "edge" ["opera"]);
      [reflexivity | reflexivity |].
    intros b' [<- | []]. reflexivity.
Defined.

(** C2, as stated, fails: an empty capture does not force the sentinel. *)
Lemma empty_capture_not_always_unknown :
  capture "ERROR__chrome.png" = Some ""
  /\ getBrowserFromScreenshotName "ERROR__chrome.png" = "chrome"
  /\ getBrowserFromScreenshotName "ERROR__chrome.png" <> "unknown_browser".
Proof. split; [reflexivity | split; [reflexivity | discriminate]]. Qed.

(** C3. When the file name does not start with [ERROR], or the expression
    has no match, the result comes from the search over [browsers]: it is
    the entry that the file name contains and after which no contained
    entry follows in the list, and the sentinel when the file name contains
    no entry at all. *)
Theorem fallback_last_match_wins (filename : string) :
  startsWith filename "ERROR" = false \/ capture filename = None ->
  (forall before b after,
      browsers = (before ++ b :: after)%list ->
      includes filename b = true ->
      (forall b', In b' after -> includes filename b' = false) ->
      getBrowserFromScreenshotName filename = b)
  /\ ((forall b, In b browsers -> includes filename b = false) ->
      getBrowserFromScreenshotName filename = "unknown_browser").
Proof.
  intros H.
  rewrite getBrowser_fallback
    by (destruct H as [H | H]; [now right | left; now rewrite H]).
  unfold fallbackName. split.
  - intros before b after E Hb Hafter.
    now rewrite (searchBrowsers_last _ _ _ _ E Hb Hafter).
  - intros Hnone. now rewrite searchBrowsers_None.
Qed.

Lemma fallback_last_match_wins_witness :
  startsWith "shot-chrome-edge.png" "ERROR" = false
  /\ includes "shot-chrome-edge.png" "chrome" = true
  /\ includes "shot-chrome-edge.png" "edge" = true
  /\ getBrowserFromScreenshotName "shot-chrome-edge.png" = "edge".
Proof.
  repeat (split; [reflexivity|]).
  apply (proj1 (fallback_last_match_wins "shot-chrome-edge.png" (or_introl eq_refl))
           ["chrome"; "firefox"; "ie"] "edge" ["opera"]);
    [reflexivity | reflexivity |].
  intros b' [<- | []]. reflexivity.
Defined.

(** C8, as amended.  The result is the sentinel or one of the five known
    names, which hold no upper-case letter, or else it is the non-empty
    capture of a file name that starts with [ERROR], returned as it
    stands. *)
Theorem browser_result_cases (filename : string) :
  (forallString notUpper (getBrowserFromScreenshotName filename) = true
   /\ (getBrowserFromScreenshotName filename = "unknown_browser"
       \/ In (getBrowserFromScreenshotName filename) browsers))
  \/ (startsWith filename "ERROR" = true
      /\ capture filename = Some (getBrowserFromScreenshotName filename)
      /\ getBrowserFromScreenshotName filename <> "").
Proof.
  destruct (startsWith filename "ERROR") eqn:Hp;
    [destruct (truthy (capture filename)) eqn:Ht|].
  - right. destruct (capture filename) as [group|] eqn:Hc; [|discriminate].
    simpl in Ht. apply negb_true_iff, String.eqb_neq in Ht.
    rewrite (getBrowser_capture _ _ Hp Hc Ht). now repeat split.
  - left. rewrite getBrowser_fallback by now left.
    destruct (fallbackName_cases filename) as [E | Hin].
    + rewrite E. split; [reflexivity | now left].
    + split; [now apply browsers_lower in Hin | now right].
  - left. rewrite getBrowser_fallback by now right.
    destruct (fallbackName_cases filename) as [E | Hin].
    + rewrite E. split; [reflexivity | now left].
    + split; [now apply browsers_lower in Hin | now right].
Qed.

(** C8, as stated, fails: an upper-case letter of the capture is kept. *)
Lemma browser_keeps_upper_case :
  getBrowserFromScreenshotName "ERROR_Chrome_12345_67890.png" = "Chrome"
  /\ forallString notUpper (getBrowserFromScreenshotName "ERROR_Chrome_12345_67890.png")
     = false.
Proof. split; reflexivity. Qed.

(** ** The template of the reporter *)

(** C5. A reporter built from a configuration without a template string
    uses the default template [%timestamp%_%capId%_%parent%-%title%]. *)
Theorem default_template_used (config : Config) :
  NoTemplate config ->
  filenameTemplate (constructor config) = "%timestamp%_%capId%_%parent%-%title%".
Proof. intros H. destruct H; reflexivity. Qed.

Lemma default_template_used_witness :
  filenameTemplate (constructor {| screenshotPath := "errorShots"; reporterOptions := None |})
  = "%timestamp%_%capId%_%parent%-%title%".
Proof. apply default_template_used. apply no_reporterOptions. Defined.

(** A template that is supplied and not empty is the one used. *)
Lemma configured_template_used (path t : string) :
  t <> "" ->
  filenameTemplate
    (constructor
       {| screenshotPath := path;
          reporterOptions :=
            Some {| errorshotReporter := Some {| template := Some t |} |} |})
  = t.
Proof.
  intros H. apply String.eqb_neq in H.
  unfold constructor, getOptionFilenameTemplate. simpl. now rewrite H.
Qed.

(** ** The placeholder lookup *)

Lemma hasRequiredProperties_true (s : Screenshot) :
  hasRequiredProperties s = true ->
  exists name date parentText titleText,
    filename s = Some name /\ time s = Some date
    /\ parent s = Some parentText /\ title s = Some titleText.
Proof.
  unfold hasRequiredProperties.
  destruct (filename s) as [name|]; [|discriminate].
  destruct (time s) as [date|]; [|discriminate].
  destruct (parent s) as [parentText|]; [|discriminate].
  destruct (title s) as [titleText|]; [|discriminate].
  intros _. now exists name, date, parentText, titleText.
Qed.

Lemma hasRequiredProperties_false (s : Screenshot) :
  filename s = None \/ time s = None \/ parent s = None \/ title s = None ->
  hasRequiredProperties s = false.
Proof.
  unfold hasRequiredProperties.
  intros [H | [H | [H | H]]]; rewrite H;
    repeat rewrite ?andb_false_r, ?andb_false_l; reflexivity.
Qed.

(** With the four properties present the lookup is built without an
    exception. *)
Lemma getPlaceholderLookup_ok (s : Screenshot) :
  hasRequiredProperties s = true ->
  exists placeholders, getPlaceholderLookup s = Ok placeholders.
Proof.
  intros H. apply hasRequiredProperties_true in H
    as (name & date & parentText & titleText & Hn & Hd & Hp & Ht).
  unfold getPlaceholderLookup. rewrite Hn, Hd, Hp, Ht. simpl. eauto.
Qed.

Lemma replaceColons_map (s : string) :
  replaceAll (reChar ":") (fun _ => "-") s = mapString colonToDash s.
Proof.
  induction s as [|c s IH]; [reflexivity|].
  simpl. unfold colonToDash at 1.
  destruct (Ascii.eqb c ":") eqn:Hc.
  - rewrite (replaceAll_match _ _ (reChar_consuming _) (String c s) (String c "") s)
      by (simpl; now rewrite Hc).
    simpl. now rewrite IH.
  - rewrite replaceAll_skip by (simpl; now rewrite Hc). now rewrite IH.
Qed.

Lemma colonToDash_no_colon (s : string) :
  includes (mapString colonToDash s) ":" = false.
Proof.
  induction s as [|c s IH]; [reflexivity|].
  change (includes (mapString colonToDash (String c s)) ":")
    with (startsWith (String (colonToDash c) (mapString colonToDash s)) ":"
          || includes (mapString colonToDash s) ":").
  rewrite IH, orb_false_r, startsWith_char.
  unfold colonToDash. destruct (Ascii.eqb c ":") eqn:Hc; [reflexivity | exact Hc].
Qed.

(** C10. For a record with the four required properties the lookup has
    [capId], [browser] and [browserName] equal, and its [timestamp] is the
    [toJSON()] text of the record's time with each colon turned into a
    dash, so it holds no colon. *)
Theorem lookup_aliases_and_timestamp (s : Screenshot) (date : Date) :
  hasRequiredProperties s = true ->
  time s = Some date ->
  exists placeholders,
    getPlaceholderLookup s = Ok placeholders
    /\ capId placeholders = browser placeholders
    /\ browser placeholders = browserName placeholders
    /\ timestamp placeholders = mapString colonToDash (toJSON date)
    /\ includes (timestamp placeholders) ":" = false.
Proof.
  intros H Hdate. apply hasRequiredProperties_true in H
    as (name & date' & parentText & titleText & Hn & Hd & Hp & Ht).
  rewrite Hdate in Hd. inversion Hd; subst date'.
  unfold getPlaceholderLookup. rewrite Hn, Hdate, Hp, Ht. simpl.
  eexists. split; [reflexivity|]. simpl.
  rewrite replaceColons_map.
  repeat split. apply colonToDash_no_colon.
Qed.

Lemma lookup_aliases_and_timestamp_witness :
  exists placeholders,
    getPlaceholderLookup (testScreenshot "ERROR_chrome_12345_67890.png" "parent" "title")
    = Ok placeholders
    /\ capId placeholders = browser placeholders
    /\ browser placeholders = browserName placeholders
    /\ timestamp placeholders = mapString colonToDash "2018-03-04T05:06:07.089Z"
    /\ includes (timestamp placeholders) ":" = false.
Proof.
  apply (lookup_aliases_and_timestamp
           (testScreenshot "ERROR_chrome_12345_67890.png" "parent" "title") testDate);
    reflexivity.
Defined.

(** ** Template resolution *)

(** The reporter resolves its template with the lookup of the record; no
    template makes it raise. *)
Lemma replaceFilenameTemplatePlaceholders_ok (this : ErrorshotReporter) (s : Screenshot) :
  hasRequiredProperties s = true ->
  exists placeholders,
    getPlaceholderLookup s = Ok placeholders
    /\ replaceFilenameTemplatePlaceholders this s
       = Ok (resolveTemplate placeholders (filenameTemplate this)).
Proof.
  intros H. destruct (getPlaceholderLookup_ok s H) as [placeholders E].
  exists placeholders. split; [exact E|].
  unfold replaceFilenameTemplatePlaceholders. now rewrite E.
Qed.

Lemma rePlaceholder_inv (s m rest : string) :
  rePlaceholder s = Some (m, rest) ->
  exists key,
    key <> "" /\ forallString isWordChar key = true
    /\ m = String "%" (key ++ "%")
    /\ s = String "%" (key ++ String "%" rest).
Proof.
  intros H. destruct s as [|c s]; simpl in H; [discriminate|].
  destruct (Ascii.eqb_spec c "%") as [->|]; [|discriminate].
  destruct (reRun isWordChar s) as [[w r]|] eqn:E; [|discriminate].
  destruct r as [|d r]; [discriminate|].
  destruct (Ascii.eqb_spec d "%") as [->|]; inversion H; subst.
  apply reRun_inv in E as [E Hw]. exists w.
  split; [exact Hw | split; [now apply span_forall in E | split; [reflexivity|]]].
  f_equal. now apply (span_append isWordChar).
Qed.

Lemma rePlaceholder_token (key rest : string) :
  key <> "" ->
  forallString isWordChar key = true ->
  rePlaceholder (String "%" (key ++ String "%" rest))
  = Some (String "%" (key ++ "%"), rest).
Proof.
  intros Hne Hw. simpl. unfold reRun.
  rewrite (span_stop isWordChar key "%" rest Hw eq_refl).
  destruct key; [contradiction | reflexivity].
Qed.

(** [/%\w+%/.test(t)] holds exactly of the strings with a token. *)
Lemma test_rePlaceholder_iff (t : string) :
  test rePlaceholder t = true <-> hasToken t.
Proof.
  split.
  - induction t as [|c t IH]; [discriminate|].
    cbn [test]. destruct (rePlaceholder (String c t)) as [[m rest]|] eqn:E.
    + intros _. apply rePlaceholder_inv in E as (key & Hne & Hw & _ & ->).
      exists "", key, rest. now repeat split.
    + intros H. destruct (IH H) as (before & key & after & -> & Hne & Hw).
      exists (String c before), key, after. now repeat split.
  - intros (before & key & after & -> & Hne & Hw).
    induction before as [|c before IH].
    + change (test rePlaceholder (String "%" (key ++ String "%" after)) = true).
      cbn [test]. now rewrite (rePlaceholder_token key after Hne Hw).
    + cbn [append test]. now destruct (rePlaceholder _).
Qed.

Lemma test_false_no_token (t : string) :
  test rePlaceholder t = false -> ~ hasToken t.
Proof.
  intros H Ht. apply test_rePlaceholder_iff in Ht. rewrite H in Ht. discriminate.
Qed.

(** C9. A template without a substring that matches [%\w+%] is returned
    unchanged by the substitution step, whatever the record. *)
Theorem resolved_template_unchanged (this : ErrorshotReporter) (s : Screenshot) :
  ~ hasToken (filenameTemplate this) ->
  hasRequiredProperties s = true ->
  replaceFilenameTemplatePlaceholders this s = Ok (filenameTemplate this).
Proof.
  intros Ht Hs.
  destruct (replaceFilenameTemplatePlaceholders_ok this s Hs) as (p & _ & ->).
  unfold resolveTemplate. f_equal. apply replaceAll_no_match.
  destruct (test rePlaceholder (filenameTemplate this)) eqn:E; [|reflexivity].
  now apply test_rePlaceholder_iff in E.
Qed.

Lemma resolved_template_unchanged_witness :
  replaceFilenameTemplatePlaceholders
    {| config := testConfig; filenameTemplate := "shot_100%-done_%%"; isInitialized := true |}
    (testScreenshot "ERROR_chrome_12345_67890.png" "parent" "title")
  = Ok "shot_100%-done_%%".
Proof.
  apply (resolved_template_unchanged
           {| config := testConfig; filenameTemplate := "shot_100%-done_%%";
              isInitialized := true |}
           (testScreenshot "ERROR_chrome_12345_67890.png" "parent" "title")).
  - apply test_false_no_token. reflexivity.
  - reflexivity.
Defined.

Lemma span_append_stop (p : ascii -> bool) (b : string) (d : ascii) (rest : string) :
  p d = false ->
  span p (b ++ String d rest) = (fst (span p b), snd (span p b) ++ String d rest).
Proof.
  intros Hd. induction b as [|c b IH]; simpl.
  - now rewrite Hd.
  - destruct (p c); [|reflexivity].
    rewrite IH. now destruct (span p b).
Qed.

(** A failed attempt inside [b ++ "%"] fails the same way when more input
    follows. *)
Lemma rePlaceholder_extend (c : ascii) (b rest : string) :
  rePlaceholder (String c (b ++ "%")) = None ->
  rePlaceholder (String c (b ++ String "%" rest)) = None.
Proof.
  simpl. destruct (Ascii.eqb c "%"); [|reflexivity].
  unfold reRun. rewrite !(span_append_stop isWordChar b "%") by reflexivity.
  destruct (span isWordChar b) as [w r]. simpl.
  destruct w as [|x w]; [reflexivity|].
  destruct r as [|d r]; simpl; [discriminate|].
  now destruct (Ascii.eqb d "%").
Qed.

(** [match.replace(/%/g, '')] of a token gives its key. *)
Lemma strip_delimiters (key : string) :
  forallString isWordChar key = true ->
  replaceAll (reChar "%") (fun _ => "") (String "%" (key ++ "%")) = key.
Proof.
  intros Hw.
  rewrite (replaceAll_match _ _ (reChar_consuming _) _ "%" (key ++ "%")) by reflexivity.
  simpl. induction key as [|c key IH].
  - reflexivity.
  - simpl in Hw. apply andb_true_iff in Hw as [Hc Hw].
    assert (Hp : Ascii.eqb c "%" = false).
    { destruct (Ascii.eqb_spec c "%") as [->|]; [discriminate | reflexivity]. }
    simpl. rewrite replaceAll_skip by (simpl; now rewrite Hp).
    now rewrite (IH Hw).
Qed.

Lemma substitute_token (placeholders : Placeholders) (key : string) :
  forallString isWordChar key = true ->
  substitute placeholders (String "%" (key ++ "%"))
  = match ownProperty placeholders key with
    | Some value => value
    | None => String "%" (key ++ "%")
    end.
Proof. intros Hw. unfold substitute. now rewrite (strip_delimiters key Hw). Qed.

(** The token that follows text without a token of its own, and without an
    open one at its end, is resolved by the lookup; the text in front is
    copied and the scan goes on behind the token. *)
Lemma resolveTemplate_token (placeholders : Placeholders) (before key after : string) :
  test rePlaceholder (before ++ "%") = false ->
  key <> "" ->
  forallString isWordChar key = true ->
  resolveTemplate placeholders (before ++ String "%" (key ++ String "%" after))
  = before
    ++ match ownProperty placeholders key with
       | Some value => value
       | None => String "%" (key ++ "%")
       end
    ++ resolveTemplate placeholders after.
Proof.
  intros Hb Hne Hw. unfold resolveTemplate.
  induction before as [|c before IH].
  - rewrite (replaceAll_match _ _ rePlaceholder_consuming _ _ _
               (rePlaceholder_token key after Hne Hw)).
    now rewrite (substitute_token _ _ Hw).
  - cbn [append test] in Hb.
    destruct (rePlaceholder (String c (before ++ "%"))) eqn:E; [discriminate|].
    cbn [append].
    rewrite replaceAll_skip by now apply rePlaceholder_extend.
    now rewrite (IH Hb).
Qed.

(** C4. Resolving a template raises no exception whatever the template
    holds.  Only tokens [%key%] are candidates: a template without a token
    is returned as it is; the first token of a template is replaced by the
    value of [key] when the lookup owns that key and is copied with its
    delimiters when it does not, the text in front of it is kept, and the
    text behind it is resolved in the same way.  The template
    [%capId%_%notexisting%_%parent%-%title%] resolves to
    [chrome_%notexisting%_parent-title]. *)
Theorem unknown_placeholder_kept :
  (forall this s,
      hasRequiredProperties s = true ->
      exists placeholders,
        getPlaceholderLookup s = Ok placeholders
        /\ replaceFilenameTemplatePlaceholders this s
           = Ok (resolveTemplate placeholders (filenameTemplate this)))
  /\ (forall placeholders t,
         ~ hasToken t -> resolveTemplate placeholders t = t)
  /\ (forall placeholders before key after,
         ~ hasToken (before ++ "%") ->
         key <> "" ->
         forallString isWordChar key = true ->
         resolveTemplate placeholders (before ++ "%" ++ key ++ "%" ++ after)
         = before
           ++ match ownProperty placeholders key with
              | Some value => value
              | None => "%" ++ key ++ "%"
              end
           ++ resolveTemplate placeholders after)
  /\ replaceFilenameTemplatePlaceholders (constructor notExistingConfig)
       (testScreenshot "ERROR_chrome_12345_67890.png" "parent" "title")
     = Ok "chrome_%notexisting%_parent-title".
Proof.
  split; [|split; [|split]].
  - exact replaceFilenameTemplatePlaceholders_ok.
  - intros placeholders t Ht. apply replaceAll_no_match.
    destruct (test rePlaceholder t) eqn:E; [|reflexivity].
    now apply test_rePlaceholder_iff in E.
  - intros placeholders before key after Hb. apply resolveTemplate_token.
    destruct (test rePlaceholder (before ++ "%")) eqn:E; [|reflexivity].
    now apply test_rePlaceholder_iff in E.
  - reflexivity.
Qed.

Lemma unknown_placeholder_kept_witness :
  (exists placeholders,
      getPlaceholderLookup (testScreenshot "ERROR_chrome_12345_67890.png" "parent" "title")
      = Ok placeholders
      /\ replaceFilenameTemplatePlaceholders (constructor notExistingConfig)
           (testScreenshot "ERROR_chrome_12345_67890.png" "parent" "title")
         = Ok (resolveTemplate placeholders "%capId%_%notexisting%_%parent%-%title%"))
  /\ resolveTemplate testPlaceholders "100%_done" = "100%_done"
  /\ ownProperty testPlaceholders "notexisting" = None
  /\ resolveTemplate testPlaceholders "shot_%notexisting%_%title%"
     = "shot_" ++ "%notexisting%" ++ resolveTemplate testPlaceholders "_%title%".
Proof.
  split; [|split; [|split; [reflexivity|]]].
  - apply (proj1 unknown_placeholder_kept (constructor notExistingConfig)
             (testScreenshot "ERROR_chrome_12345_67890.png" "parent" "title")).
    reflexivity.
  - apply (proj1 (proj2 unknown_placeholder_kept) testPlaceholders "100%_done").
    apply test_false_no_token. reflexivity.
  - apply (proj1 (proj2 (proj2 unknown_placeholder_kept))
             testPlaceholders "shot_" "notexisting" "_%title%");
      [apply test_false_no_token; reflexivity | discriminate | reflexivity].
Defined.

(** ** The event handler *)

Lemma getScreenshotName_ok (this : ErrorshotReporter) (s : Screenshot) :
  hasRequiredProperties s = true ->
  exists newName, getScreenshotName this s = Ok newName.
Proof.
  intros H. destruct (replaceFilenameTemplatePlaceholders_ok this s H) as (p & _ & E).
  unfold getScreenshotName. rewrite E. simpl. eauto.
Qed.

(** Without a callback, and with the logger of the reporter, the request
    is all that [renameScreenshot] leaves behind, whatever the outcome. *)
Lemma renameScreenshot_effect (node : Node) (filepathOld filepathNew : string) (w : World) :
  renameScreenshot node filepathOld filepathNew None w
  = (w ++ [FsRename filepathOld filepathNew])%list.
Proof.
  unfold renameScreenshot, log.
  now destruct (fs_rename node filepathOld filepathNew).
Qed.

(** C7, as amended.  When the record lacks one of [filename], [time],
    [parent] and [title], the handler returns [false] and asks for no
    rename.  When the four hold a string file name, a valid Date and string
    labels, and the configuration has a [screenshotPath], the handler asks
    for exactly one rename, from the path of the old name to the path of
    the new name, and returns [true]; what [fs.rename] reports later has no
    part in that. *)
Theorem handler_contract_usable_record (node : Node)
    (this : Dynamic.ErrorshotReporter) (s : Dynamic.Screenshot) (w : World) :
  (Dynamic.filename s = None \/ Dynamic.time s = None
   \/ Dynamic.parent s = None \/ Dynamic.title s = None ->
   Dynamic.handleEventRunnerScreenshot node this s w = (Ok false, w))
  /\ (forall directory name iso parentText titleText,
         Dynamic.screenshotPath (Dynamic.config this) = Some directory ->
         s = {| Dynamic.filename := Some (Dynamic.Holds name);
                Dynamic.time := Some (Dynamic.Holds (Dynamic.ValidDate iso));
                Dynamic.parent := Some (Dynamic.Holds parentText);
                Dynamic.title := Some (Dynamic.Holds titleText) |} ->
         exists newName,
           Dynamic.getScreenshotName this s = Ok newName
           /\ Dynamic.handleEventRunnerScreenshot node this s w
              = (Ok true,
                 (w ++ [FsRename (path_join node directory name)
                                 (path_join node directory newName)])%list)).
Proof.
  split.
  - intros H.
    assert (E : Dynamic.hasRequiredProperties s = false).
    { unfold Dynamic.hasRequiredProperties.
      destruct H as [H | [H | [H | H]]]; rewrite H;
        repeat rewrite ?andb_false_r, ?andb_false_l; reflexivity. }
    unfold Dynamic.handleEventRunnerScreenshot, Dynamic.screenshotHasRequiredProperties, log.
    now rewrite E.
  - intros directory name iso parentText titleText Hdir ->.
    eexists. split; [reflexivity|].
    unfold Dynamic.handleEventRunnerScreenshot, Dynamic.screenshotHasRequiredProperties,
      Dynamic.buildScreenshotFilepath.
    cbn -[renameScreenshot Dynamic.getScreenshotName]. rewrite Hdir.
    cbn -[renameScreenshot]. now rewrite renameScreenshot_effect.
Qed.

Lemma handler_contract_usable_record_witness :
  Dynamic.handleEventRunnerScreenshot (testNode (Some "ENOENT")) dynamicTestReporter
    {| Dynamic.filename := Some (Dynamic.Holds "ERROR_corrupted_screenshot_data.png");
       Dynamic.time := None; Dynamic.parent := None; Dynamic.title := None |} []
  = (Ok false, [])
  /\ exists newName,
       Dynamic.getScreenshotName dynamicTestReporter
         (dynamicScreenshot
            (testScreenshot "ERROR_chrome_12345_1337.png" "parent text here"
               "title text here"))
       = Ok newName
       /\ Dynamic.handleEventRunnerScreenshot (testNode (Some "ENOENT")) dynamicTestReporter
            (dynamicScreenshot
               (testScreenshot "ERROR_chrome_12345_1337.png" "parent text here"
                  "title text here")) []
          = (Ok true,
             ([] ++ [FsRename
                       (path_join (testNode (Some "ENOENT")) "errorShots"
                          "ERROR_chrome_12345_1337.png")
                       (path_join (testNode (Some "ENOENT")) "errorShots" newName)])%list).
Proof.
  split.
  - apply (proj1 (handler_contract_usable_record (testNode (Some "ENOENT"))
                    dynamicTestReporter
                    {| Dynamic.filename :=
                         Some (Dynamic.Holds "ERROR_corrupted_screenshot_data.png");
                       Dynamic.time := None; Dynamic.parent := None;
                       Dynamic.title := None |} [])).
    right. left. reflexivity.
  - apply (proj2 (handler_contract_usable_record (testNode (Some "ENOENT"))
                    dynamicTestReporter
                    (dynamicScreenshot
                       (testScreenshot "ERROR_chrome_12345_1337.png" "parent text here"
                          "title text here")) [])
             "errorShots" "ERROR_chrome_12345_1337.png" "2018-03-04T05:06:07.089Z"
             "parent text here" "title text here"); reflexivity.
Defined.

(** C7, as stated, fails: a record that owns the four properties passes
    the check, and the handler then raises without asking for a rename when
    the Date is invalid, when a label holds [undefined], or when the
    configuration has no [screenshotPath]. *)
Lemma handler_raises_on_owned_properties :
  Dynamic.hasRequiredProperties invalidDateScreenshot = true
  /\ Dynamic.handleEventRunnerScreenshot (testNode None) dynamicTestReporter
       invalidDateScreenshot []
     = (Throw TypeError, [])
  /\ Dynamic.hasRequiredProperties undefinedTitleScreenshot = true
  /\ Dynamic.handleEventRunnerScreenshot (testNode None) dynamicTestReporter
       undefinedTitleScreenshot []
     = (Throw TypeError, [])
  /\ Dynamic.handleEventRunnerScreenshot (testNode None)
       (Dynamic.constructor
          {| Dynamic.screenshotPath := None; Dynamic.reporterOptions := None |})
       (dynamicScreenshot
          (testScreenshot "ERROR_chrome_12345_1337.png" "parent text here"
             "title text here")) []
     = (Throw TypeError, []).
Proof. repeat split. Qed.

(** On the records and configurations of the typed reading the two
    readings of the handler agree. *)
Lemma dynamic_handler_agrees (node : Node) (this : ErrorshotReporter)
    (s : Screenshot) (w : World) :
  Dynamic.handleEventRunnerScreenshot node (dynamicReporter this) (dynamicScreenshot s) w
  = match handleEventRunnerScreenshot node this s w with
    | Ok (answer, w') => (Ok answer, w')
    | Throw e => (Throw e, w)
    end.
Proof.
  destruct s as [[name|] [date|] [parentText|] [titleText|]]; try reflexivity.
Qed.

(** The end-to-end case of the unit tests, with a rename that fails and
    with one that succeeds. *)
Example handler_end_to_end (outcome : option string) :
  handleEventRunnerScreenshot (testNode outcome)
    (constructor {| screenshotPath := "errorShots"; reporterOptions := None |})
    (testScreenshot "ERROR_chrome_12345_1337.png" "parent text here" "title text here") []
  = Ok (true,
        [FsRename "errorShots/ERROR_chrome_12345_1337.png"
           "errorShots/2018-03-04T05-06-07.089Z_chrome_parent-text-here-title-text-here.png"]).
Proof. destruct outcome; reflexivity. Qed.

(** ** The earlier revision *)

(** An empty capture came back as the empty string. *)
Lemma earlier_empty_capture :
  Earlier.getCapabilitiesFromScreenshotName "ERROR__12345_67890.png" = "".
Proof. reflexivity. Qed.

(** The default was another template, and a configuration without
    [reporterOptions] made the constructor raise. *)
Lemma earlier_default_format :
  Earlier.getOptionFilenameTemplate consoleLog
    {| screenshotPath := "errorShots";
       reporterOptions := Some {| errorshotReporter := Some {| template := Some "" |} |} |}
    []
  = (Ok "%capId%_%parent%-%title%_%timestamp%",
     [ConsoleLog "No template name defined in the configs."])
  /\ Earlier.getOptionFilenameTemplate consoleLog
       {| screenshotPath := "errorShots"; reporterOptions := None |} []
     = (Throw TypeError, [ConsoleLog "No template name defined in the configs."]).
Proof. split; reflexivity. Qed.

(** After a rename request the handler returned [undefined]. *)
Lemma earlier_handler_undefined (outcome : option string) :
  exists w,
    Earlier.handleEventRunnerScreenshot consoleLog (testNode outcome)
      (constructor testConfig)
      (testScreenshot "ERROR_chrome_12345_1337.png" "parent text here" "title text here") []
    = Ok (None, w)
    /\ renameCalls w
       = [("errorShots/ERROR_chrome_12345_1337.png",
           "errorShots/chrome_2018-03-04T05-06-07.089Z_parent-text-here-title-text-here.png")].
Proof. destruct outcome; eexists; split; reflexivity. Qed.

(** * Further properties *)

(** ** slugify: its image and what it keeps *)

Lemma slugChar_lower (c : ascii) : isSlugChar c = true -> toLowerCaseChar c = c.
Proof.
  destruct c as [[|] [|] [|] [|] [|] [|] [|] [|]]; intros H;
    try discriminate H; reflexivity.
Qed.

Lemma slugChar_not_space (c : ascii) : isSlugChar c = true -> isWhiteSpace c = false.
Proof.
  destruct c as [[|] [|] [|] [|] [|] [|] [|] [|]]; intros H;
    try discriminate H; reflexivity.
Qed.

Lemma slugChar_kept (c : ascii) : isSlugChar c = true -> isNonWordNonDash c = false.
Proof.
  destruct c as [[|] [|] [|] [|] [|] [|] [|] [|]]; intros H;
    try discriminate H; reflexivity.
Qed.

Lemma space_not_word (c : ascii) : isWhiteSpace c = true -> isWordChar c = false.
Proof.
  destruct c as [[|] [|] [|] [|] [|] [|] [|] [|]]; intros H;
    try discriminate H; reflexivity.
Qed.

Lemma nonWord_not_word (c : ascii) : isNonWordNonDash c = true -> isWordChar c = false.
Proof.
  unfold isNonWordNonDash. intros H. apply negb_true_iff, orb_false_iff in H. apply H.
Qed.

Lemma dash_not_word (c : ascii) : isDash c = true -> isWordChar c = false.
Proof. intros H. apply Ascii.eqb_eq in H. now subst c. Qed.

Lemma slugChar_word_or_dash (c : ascii) :
  isSlugChar c = true -> isWordChar c = false -> isDash c = true.
Proof.
  destruct c as [[|] [|] [|] [|] [|] [|] [|] [|]]; intros H H';
    try discriminate H; try discriminate H'; reflexivity.
Qed.

Lemma mapString_id (f : ascii -> ascii) (p : ascii -> bool) (s : string) :
  (forall c, p c = true -> f c = c) ->
  forallString p s = true -> mapString f s = s.
Proof.
  intros Hf. induction s as [|c s IH]; simpl; [reflexivity|].
  intros H. apply andb_true_iff in H as [Hc Hs]. now rewrite (Hf c Hc), (IH Hs).
Qed.

(** A run expression finds nothing in a string without a code unit of its
    class. *)
Lemma test_reRun_false (p q : ascii -> bool) (s : string) :
  (forall c, q c = true -> p c = false) ->
  forallString q s = true -> test (reRun p) s = false.
Proof.
  intros Hpq. induction s as [|c s IH]; [reflexivity|].
  intros H. simpl in H. apply andb_true_iff in H as [Hc Hs].
  cbn [test]. unfold reRun at 1. simpl. rewrite (Hpq c Hc). now apply IH.
Qed.

Lemma reDashDashRun_no_pair (c : ascii) (s : string) :
  isDash c && startsWith s "-" = false -> reDashDashRun (String c s) = None.
Proof.
  unfold reDashDashRun. destruct (isDash c); [|reflexivity].
  cbn [andb]. intros H. destruct s as [|d s]; [reflexivity|].
  rewrite startsWith_char in H. unfold reDashRun, reRun. cbn [span].
  unfold isDash. now rewrite H.
Qed.

Lemma test_reDashDashRun_false (s : string) :
  includes s "--" = false -> test reDashDashRun s = false.
Proof.
  induction s as [|c s IH]; [reflexivity|].
  change (includes (String c s) "--")
    with (startsWith (String c s) "--" || includes s "--").
  intros H. apply orb_false_iff in H as [H1 H2].
  change (startsWith (String c s) "--") with (isDash c && startsWith s "-") in H1.
  cbn [test]. now rewrite (reDashDashRun_no_pair _ _ H1), (IH H2).
Qed.

Lemma endsWith_all_dashes (s : string) :
  s <> "" -> forallString isDash s = true -> endsWith s "-" = true.
Proof.
  induction s as [|c s IH]; [contradiction|].
  intros _ H. simpl in H. apply andb_true_iff in H as [Hc Hs].
  change (endsWith (String c s) "-") with (String.eqb (String c s) "-" || endsWith s "-").
  destruct s as [|d s].
  - apply Ascii.eqb_eq in Hc. now subst c.
  - rewrite IH by (discriminate || exact Hs). apply orb_true_r.
Qed.

Lemma trimEnd_id (s : string) :
  endsWith s "-" = false -> replaceFirst reDashRunToEnd (fun _ => "") s = s.
Proof.
  induction s as [|c s IH]; [reflexivity|].
  intros H. cbn [replaceFirst].
  destruct (reDashRunToEnd (String c s)) as [[m rest]|] eqn:E.
  - apply reDashRunToEnd_inv in E as (Hm & _ & Hd). subst m.
    rewrite endsWith_all_dashes in H by (discriminate || exact Hd). discriminate.
  - f_equal. apply IH.
    change (endsWith (String c s) "-")
      with (String.eqb (String c s) "-" || endsWith s "-") in H.
    now apply orb_false_iff in H.
Qed.

Lemma trimStart_id (s : string) :
  startsWith s "-" = false -> replaceAtStart reDashRun (fun _ => "") s = s.
Proof.
  intros H. unfold replaceAtStart, reDashRun, reRun.
  destruct s as [|c s]; [reflexivity|].
  rewrite startsWith_char in H. cbn [span]. unfold isDash. now rewrite H.
Qed.

(** A string of the shape of a slug passes through every step unchanged. *)
Lemma isSlug_fixed (s : string) : isSlug s = true -> slugify s = s.
Proof.
  unfold isSlug. intros H.
  apply andb_true_iff in H as [H Hd]. apply andb_true_iff in H as [H He].
  apply andb_true_iff in H as [Hc Hb].
  apply negb_true_iff in Hd, He, Hb.
  unfold slugify, slugifyWith, toLowerCase.
  rewrite (mapString_id _ _ _ slugChar_lower Hc).
  rewrite (replaceAll_no_match _ _ s (test_reRun_false _ _ _ slugChar_not_space Hc)).
  rewrite (replaceAll_no_match _ _ s (test_reRun_false _ _ _ slugChar_kept Hc)).
  rewrite (replaceAll_no_match _ _ s (test_reDashDashRun_false _ Hd)).
  rewrite (trimStart_id _ Hb). now apply trimEnd_id.
Qed.

(** The result of [slugify] has the shape of a slug. *)
Lemma slugify_isSlug (text : string) : isSlug (slugify text) = true.
Proof.
  unfold isSlug, slugify, slugifyWith.
  set (s1 := replaceAll reWhiteSpaceRun (fun _ => "-") (toLowerCase text)).
  set (s2 := replaceAll reNonWordRun (fun _ => "") s1).
  set (s3 := replaceAll reDashDashRun (fun _ => "-") s2).
  set (s4 := replaceAtStart reDashRun (fun _ => "") s3).
  set (s5 := replaceFirst reDashRunToEnd (fun _ => "") s4).
  assert (H2 : forallString isSlugChar s2 = true).
  { apply (forallString_impl (fun c => negb (isNonWordNonDash c) && notUpper c)).
    - intros c Hc. apply andb_true_iff in Hc as [Hw Hu].
      apply isSlugChar_intro; [now apply negb_true_iff | exact Hu].
    - apply forallString_and; [apply removeNonWord_chars|].
      apply (replaceAll_forall _ _ (reRun_consuming _)); [reflexivity|].
      apply (replaceAll_forall _ _ (reRun_consuming _)); [reflexivity|].
      apply toLowerCase_notUpper. }
  assert (H3 : forallString isSlugChar s3 = true)
    by (apply (replaceAll_forall _ _ reDashDashRun_consuming); [reflexivity | exact H2]).
  pose proof (collapseDashes_single s2) as D3. fold s3 in D3.
  destruct (trimStart_spec s3) as (d & E3 & B4). fold s4 in E3, B4.
  destruct (trimEnd_spec s4) as (d' & E4 & _ & T5). fold s5 in E4, T5.
  rewrite E3, forallString_append in H3. apply andb_true_iff in H3 as [_ H4].
  rewrite E3 in D3. apply includes_suffix in D3.
  rewrite E4, forallString_append in H4. apply andb_true_iff in H4 as [H5 _].
  rewrite E4 in D3. apply includes_prefix in D3.
  rewrite H5, T5, D3.
  destruct (startsWith s5 "-") eqn:B5; [|reflexivity].
  apply (startsWith_prefix _ d') in B5. rewrite <- E4, B4 in B5. discriminate.
Qed.

(** X1. The strings [slugify] returns unchanged are exactly those of the
    shape of a slug. *)
Theorem slugify_fixed_points (s : string) :
  slugify s = s <-> isSlug s = true.
Proof.
  split.
  - intros H. rewrite <- H. apply slugify_isSlug.
  - apply isSlug_fixed.
Qed.

(** X2. [slugify] is idempotent. *)
Theorem slugify_idempotent (text : string) :
  slugify (slugify text) = slugify text.
Proof. apply isSlug_fixed, slugify_isSlug. Qed.

Lemma filterString_append (p : ascii -> bool) (a b : string) :
  filterString p (a ++ b) = filterString p a ++ filterString p b.
Proof.
  induction a as [|c a IH]; simpl; [reflexivity|].
  destruct (p c); simpl; now rewrite IH.
Qed.

Lemma filterString_none (p q : ascii -> bool) (s : string) :
  (forall c, q c = true -> p c = false) ->
  forallString q s = true -> filterString p s = "".
Proof.
  intros Hqp. induction s as [|c s IH]; simpl; [reflexivity|].
  intros H. apply andb_true_iff in H as [Hc Hs]. now rewrite (Hqp c Hc), (IH Hs).
Qed.

(** A global replacement that trades text without word characters for
    text without word characters keeps the word characters of its input. *)
Lemma replaceAll_wordChars (re : Matcher) (fn : string -> string) :
  Consuming re ->
  (forall s m rest, re s = Some (m, rest) -> wordChars (fn m) = wordChars m) ->
  forall s, wordChars (replaceAll re fn s) = wordChars s.
Proof.
  intros Hre Hm.
  apply (replaceAll_scan re fn Hre (fun s out => wordChars out = wordChars s)).
  - reflexivity.
  - intros s m rest E IH. unfold wordChars in *.
    rewrite filterString_append, IH, (Hm _ _ _ E).
    apply Hre in E as [-> _]. now rewrite filterString_append.
  - intros c s _ IH. unfold wordChars in *. simpl. now rewrite IH.
Qed.

Lemma reRun_wordChars (p : ascii -> bool) (s m rest : string) :
  (forall c, p c = true -> isWordChar c = false) ->
  reRun p s = Some (m, rest) -> wordChars m = "".
Proof.
  intros Hp E. apply reRun_inv in E as [E _]. apply span_forall in E.
  now apply (filterString_none isWordChar p).
Qed.

Lemma reDashDashRun_wordChars (s m rest : string) :
  reDashDashRun s = Some (m, rest) -> wordChars m = "".
Proof.
  intros H. destruct s as [|c s]; simpl in H; [discriminate|].
  destruct (isDash c) eqn:Hc; [|discriminate].
  destruct (reDashRun s) as [[m' rest']|] eqn:E; inversion H; subst.
  unfold wordChars. simpl. rewrite (dash_not_word c Hc).
  now apply (reRun_wordChars isDash s m' rest dash_not_word).
Qed.

Lemma trimStart_dashes (s : string) :
  exists d, s = d ++ replaceAtStart reDashRun (fun _ => "") s
            /\ forallString isDash d = true.
Proof.
  unfold replaceAtStart. destruct (reDashRun s) as [[m rest]|] eqn:E.
  - apply reRun_inv in E as [E _]. exists m. simpl. split.
    + now apply (span_append isDash).
    + now apply span_forall in E.
  - now exists "".
Qed.

(** The steps after [toLowerCase] only take away and put in code units
    that are no word characters. *)
Lemma slugify_wordChars (text : string) :
  wordChars (slugify text) = wordChars (toLowerCase text).
Proof.
  unfold slugify, slugifyWith.
  set (s1 := replaceAll reWhiteSpaceRun (fun _ => "-") (toLowerCase text)).
  set (s2 := replaceAll reNonWordRun (fun _ => "") s1).
  set (s3 := replaceAll reDashDashRun (fun _ => "-") s2).
  set (s4 := replaceAtStart reDashRun (fun _ => "") s3).
  destruct (trimEnd_spec s4) as (d' & E4 & Hd' & _).
  set (s5 := replaceFirst reDashRunToEnd (fun _ => "") s4) in *.
  destruct (trimStart_dashes s3) as (d & E3 & Hd). fold s4 in E3.
  clearbody s5. clearbody s4.
  assert (W5 : wordChars s5 = wordChars s4).
  { rewrite E4. unfold wordChars. rewrite filterString_append.
    rewrite (filterString_none _ _ d' dash_not_word Hd'). now rewrite append_empty_r. }
  assert (W4 : wordChars s4 = wordChars s3).
  { rewrite E3. unfold wordChars. rewrite filterString_append.
    now rewrite (filterString_none _ _ d dash_not_word Hd). }
  rewrite W5, W4. unfold s3, s2, s1.
  rewrite (replaceAll_wordChars _ _ reDashDashRun_consuming)
    by (intros s m rest E; now rewrite (reDashDashRun_wordChars _ _ _ E)).
  rewrite (replaceAll_wordChars reNonWordRun _ (reRun_consuming _))
    by (intros s m rest E; now rewrite (reRun_wordChars _ _ _ _ nonWord_not_word E)).
  rewrite (replaceAll_wordChars reWhiteSpaceRun _ (reRun_consuming _))
    by (intros s m rest E; now rewrite (reRun_wordChars _ _ _ _ space_not_word E)).
  reflexivity.
Qed.

(** X3. After the text is lower-cased, [slugify] neither drops nor
    invents a word character: the word characters of its result are those
    of [text.toLowerCase()], in the same order. *)
Theorem slugify_keeps_word_characters (text : string) :
  wordChars (slugify text) = wordChars (toLowerCase text).
Proof. exact (slugify_wordChars text). Qed.

Lemma slug_without_words (s : string) :
  forallString isSlugChar s = true -> wordChars s = "" ->
  forallString isDash s = true.
Proof.
  unfold wordChars. induction s as [|c s IH]; simpl; [reflexivity|].
  intros H Hw. apply andb_true_iff in H as [Hc Hs].
  destruct (isWordChar c) eqn:E; [discriminate|].
  now rewrite (slugChar_word_or_dash c Hc E), (IH Hs Hw).
Qed.

(** X4. [slugify] returns the empty string exactly for the texts whose
    lower-cased form [text.toLowerCase()] holds no word character. *)
Theorem slugify_empty_iff (text : string) :
  slugify text = "" <-> wordChars (toLowerCase text) = "".
Proof.
  split.
  - intros H. pose proof (slugify_wordChars text) as W. now rewrite H in W.
  - intros H. pose proof (slugify_wordChars text) as W. rewrite H in W.
    pose proof (slugify_isSlug text) as S. unfold isSlug in S.
    apply andb_true_iff in S as [S _]. apply andb_true_iff in S as [S _].
    apply andb_true_iff in S as [Hc Hb]. apply negb_true_iff in Hb.
    pose proof (slug_without_words _ Hc W) as Hd.
    destruct (slugify text) as [|c t]; [reflexivity|].
    rewrite startsWith_char in Hb. simpl in Hd.
    apply andb_true_iff in Hd as [Hd _]. unfold isDash in Hd.
    rewrite Hd in Hb. discriminate.
Qed.

(** ** Browser name inference: the capture and the result *)

Lemma reLazyGroupUnderscore_inv (s group rest : string) :
  reLazyGroupUnderscore s = Some (group, rest) ->
  s = group ++ String "_" rest /\ forallString isGroupChar group = true.
Proof.
  revert group. induction s as [|c s IH]; intros group H; [discriminate|].
  simpl in H. destruct (Ascii.eqb_spec c "_") as [->|Hc].
  - inversion H; subst. now split.
  - destruct (isLineTerminator c) eqn:Hl; [discriminate|].
    destruct (reLazyGroupUnderscore s) as [[g r]|]; inversion H; subst.
    destruct (IH g eq_refl) as [-> Hg]. split; [reflexivity|].
    simpl. rewrite Hg. unfold isGroupChar. rewrite Hl.
    apply Ascii.eqb_neq in Hc. now rewrite Hc.
Qed.

Lemma groupChar_intro (s : string) :
  forallString notUnderscore s = true ->
  forallString notLineTerminator s = true ->
  forallString isGroupChar s = true.
Proof. intros Hu Hl. now apply (forallString_and notUnderscore notLineTerminator). Qed.

Lemma groupChar_notUnderscore (s : string) :
  forallString isGroupChar s = true -> forallString notUnderscore s = true.
Proof.
  apply forallString_impl. intros c H. unfold isGroupChar in H.
  now apply andb_true_iff in H.
Qed.

Lemma capture_cons (c : ascii) (s : string) :
  capture (String c s)
  = match reUnderscoreGroup (String c s) with
    | Some (group, _) => Some group
    | None => capture s
    end.
Proof.
  unfold capture. cbn [matchUnderscoreGroup].
  now destruct (reUnderscoreGroup (String c s)) as [[g r]|].
Qed.

Lemma capture_first_pair (filename group : string) :
  forallString notLineTerminator filename = true ->
  capture filename = Some group ->
  exists before rest,
    filename = before ++ String "_" (group ++ String "_" rest)
    /\ forallString notUnderscore before = true
    /\ forallString notUnderscore group = true.
Proof.
  induction filename as [|c s IH]; intros Hl H; [discriminate|].
  rewrite capture_cons in H. simpl in Hl. apply andb_true_iff in Hl as [Hc Hl].
  destruct (reUnderscoreGroup (String c s)) as [[g r]|] eqn:E.
  - inversion H; subst g. simpl in E.
    destruct (Ascii.eqb_spec c "_") as [->|]; [|discriminate].
    apply reLazyGroupUnderscore_inv in E as [-> Hg].
    exists "", r. split; [reflexivity | split; [reflexivity|]].
    now apply groupChar_notUnderscore.
  - destruct (IH Hl H) as (before & rest & -> & Hb & Hg).
    exists (String c before), rest. split; [reflexivity | split; [|exact Hg]].
    simpl. rewrite Hb, andb_true_r. unfold notUnderscore.
    destruct (Ascii.eqb_spec c "_") as [->|]; [|reflexivity].
    simpl in E. rewrite forallString_append in Hl.
    apply andb_true_iff in Hl as [Hlb _].
    rewrite (reLazyGroupUnderscore_group before _ (groupChar_intro _ Hb Hlb)) in E.
    discriminate.
Qed.

(** X5. In a file name without a line terminator, the capture of
    [/_(.*?)_/] is the text between the first and the second underscore:
    the expression has capture [group] exactly when the name is
    [before_group_rest] with no underscore in [before] and [group]. *)
Theorem capture_is_between_first_underscores (filename group : string) :
  forallString notLineTerminator filename = true ->
  capture filename = Some group
  <-> exists before rest,
        filename = before ++ "_" ++ group ++ "_" ++ rest
        /\ forallString notUnderscore before = true
        /\ forallString notUnderscore group = true.
Proof.
  intros Hl. split.
  - now apply capture_first_pair.
  - intros (before & rest & -> & Hb & Hg).
    apply capture_between_underscores; [exact Hb|].
    apply groupChar_intro; [exact Hg|].
    rewrite forallString_append in Hl. apply andb_true_iff in Hl as [_ Hl].
    change ("_" ++ group ++ "_" ++ rest) with (String "_" (group ++ String "_" rest)) in Hl.
    cbn [forallString] in Hl. apply andb_true_iff in Hl as [_ Hl].
    rewrite forallString_append in Hl. now apply andb_true_iff in Hl as [Hl _].
Qed.

Lemma capture_is_between_first_underscores_witness :
  capture "ERROR_chrome_12345_67890.png" = Some "chrome"
  <-> exists before rest,
        "ERROR_chrome_12345_67890.png" = before ++ "_" ++ "chrome" ++ "_" ++ rest
        /\ forallString notUnderscore before = true
        /\ forallString notUnderscore "chrome" = true.
Proof.
  apply (capture_is_between_first_underscores "ERROR_chrome_12345_67890.png" "chrome").
  reflexivity.
Defined.

(** X6. For a name of the runner's making, [ERROR_<group>_<rest>] with a
    non-empty [group] free of underscores and line terminators, the
    inferred browser is [group], whatever follows the second underscore. *)
Theorem error_name_gives_group (group rest : string) :
  group <> "" ->
  forallString isGroupChar group = true ->
  getBrowserFromScreenshotName ("ERROR_" ++ group ++ "_" ++ rest) = group.
Proof.
  intros Hne Hg. apply getBrowser_capture; [reflexivity | | exact Hne].
  now apply (capture_between_underscores "ERROR").
Qed.

Lemma error_name_gives_group_witness :
  getBrowserFromScreenshotName ("ERROR_" ++ "custom-browser-name" ++ "_" ++ "edge_1.png")
  = "custom-browser-name".
Proof.
  apply (error_name_gives_group "custom-browser-name" "edge_1.png");
    [discriminate | reflexivity].
Defined.

(** X7. The inferred browser is never the empty string. *)
Theorem browser_never_empty (filename : string) :
  getBrowserFromScreenshotName filename <> "".
Proof.
  destruct (startsWith filename "ERROR") eqn:Hp;
    [destruct (truthy (capture filename)) eqn:Ht|].
  - destruct (capture filename) as [group|] eqn:Hc; [|discriminate].
    simpl in Ht. apply negb_true_iff, String.eqb_neq in Ht.
    now rewrite (getBrowser_capture _ _ Hp Hc Ht).
  - rewrite getBrowser_fallback by now left.
    destruct (fallbackName_cases filename) as [E | Hin];
      [rewrite E; discriminate | now apply browsers_lower in Hin].
  - rewrite getBrowser_fallback by now right.
    destruct (fallbackName_cases filename) as [E | Hin];
      [rewrite E; discriminate | now apply browsers_lower in Hin].
Qed.

(** X8. For a file name that does not start with [ERROR] the capture
    plays no part: the result is one of the five known names, contained in
    the file name, or the sentinel. *)
Theorem no_prefix_known_or_unknown (filename : string) :
  startsWith filename "ERROR" = false ->
  getBrowserFromScreenshotName filename = "unknown_browser"
  \/ (In (getBrowserFromScreenshotName filename) browsers
      /\ includes filename (getBrowserFromScreenshotName filename) = true).
Proof.
  intros Hp. rewrite getBrowser_fallback by now right.
  unfold fallbackName, searchBrowsers.
  destruct (forEach_result filename browsers None) as [E | (b & E & Hin & Hb)];
    rewrite E; [now left | now right].
Qed.

Lemma no_prefix_known_or_unknown_witness :
  getBrowserFromScreenshotName "custom-browser-name_12345_67890.png" = "unknown_browser"
  \/ (In (getBrowserFromScreenshotName "custom-browser-name_12345_67890.png") browsers
      /\ includes "custom-browser-name_12345_67890.png"
           (getBrowserFromScreenshotName "custom-browser-name_12345_67890.png") = true).
Proof.
  apply (no_prefix_known_or_unknown "custom-browser-name_12345_67890.png"). reflexivity.
Defined.

(** ** The reporter: template, lookup and file name *)

(** X9. The template of a reporter is never empty: it is the default
    template or the non-empty template of the configuration. *)
Theorem template_never_empty (config : Config) :
  filenameTemplate (constructor config) <> ""
  /\ (filenameTemplate (constructor config) = defaultFilenameTemplate
      \/ exists options reporter,
           reporterOptions config = Some options
           /\ errorshotReporter options = Some reporter
           /\ template reporter = Some (filenameTemplate (constructor config))).
Proof.
  unfold constructor, getOptionFilenameTemplate. simpl.
  destruct (reporterOptions config) as [options|]; [|split; [discriminate | now left]].
  destruct (errorshotReporter options) as [reporter|] eqn:Er;
    [|split; [discriminate | now left]].
  destruct (template reporter) as [t|] eqn:Et; [|split; [discriminate | now left]].
  destruct (String.eqb_spec t "") as [->|Hne]; [split; [discriminate | now left]|].
  split; [exact Hne|]. right. now exists options, reporter.
Qed.

Lemma dynamic_lookup_usable (s : Dynamic.Screenshot) :
  Dynamic.usable s = true ->
  exists placeholders, Dynamic.getPlaceholderLookup s = Ok placeholders.
Proof.
  destruct s as [[[| |name]|] [[| |[iso|]]|] [[| |parentText]|] [[| |titleText]|]];
    try discriminate. intros _. cbn. eauto.
Qed.

Lemma dynamic_lookup_unusable (s : Dynamic.Screenshot) :
  Dynamic.usable s = false -> Dynamic.getPlaceholderLookup s = Throw TypeError.
Proof.
  destruct s as [[[| |name]|] [[| |[iso|]]|] [[| |parentText]|] [[| |titleText]|]];
    try reflexivity. discriminate.
Qed.

(** X10. The own-property check of the handler is necessary for the
    naming but not all it needs: the lookup and the file name are computed
    when [filename], [parent] and [title] hold strings and [time] a valid
    Date, and both raise a [TypeError] when one of the four is missing,
    [undefined] or [null], or the Date is invalid. *)
Theorem naming_needs_usable_values (this : Dynamic.ErrorshotReporter)
    (s : Dynamic.Screenshot) :
  match Dynamic.getPlaceholderLookup s with
  | Ok _ => Dynamic.usable s = true
  | Throw e => Dynamic.usable s = false /\ e = TypeError
  end
  /\ match Dynamic.getScreenshotName this s with
     | Ok _ => Dynamic.usable s = true
     | Throw e => Dynamic.usable s = false /\ e = TypeError
     end
  /\ implb (Dynamic.usable s) (Dynamic.hasRequiredProperties s) = true.
Proof.
  destruct (Dynamic.usable s) eqn:H.
  - destruct (dynamic_lookup_usable s H) as [p E].
    unfold Dynamic.getScreenshotName, Dynamic.replaceFilenameTemplatePlaceholders.
    rewrite E. cbn. repeat split.
    destruct s as [[[| |name]|] [[| |[iso|]]|] [[| |parentText]|] [[| |titleText]|]];
      try discriminate. reflexivity.
  - unfold Dynamic.getScreenshotName, Dynamic.replaceFilenameTemplatePlaceholders.
    rewrite (dynamic_lookup_unusable s H). cbn. now repeat split.
Qed.

Lemma endsWith_refl (s : string) : endsWith s s = true.
Proof. destruct s; cbn [endsWith]; [reflexivity|]. now rewrite String.eqb_refl. Qed.

Lemma endsWith_append (a b : string) : endsWith (a ++ b) b = true.
Proof.
  induction a as [|c a IH]; [apply endsWith_refl|].
  change (endsWith (String c a ++ b) b)
    with (String.eqb (String c (a ++ b)) b || endsWith (a ++ b) b).
  rewrite IH. apply orb_true_r.
Qed.

(** X11. A computed file name is the resolved template followed by
    [.png], so it ends with [.png] whatever the template holds. *)
Theorem screenshot_name_has_extension (this : ErrorshotReporter) (s : Screenshot)
    (name : string) :
  getScreenshotName this s = Ok name ->
  endsWith name ".png" = true
  /\ exists placeholders,
       getPlaceholderLookup s = Ok placeholders
       /\ name = resolveTemplate placeholders (filenameTemplate this) ++ ".png".
Proof.
  unfold getScreenshotName, replaceFilenameTemplatePlaceholders.
  destruct (getPlaceholderLookup s) as [p|e]; simpl; [|discriminate].
  intros H. inversion H; subst. split; [apply endsWith_append|].
  now exists p.
Qed.

Lemma screenshot_name_has_extension_witness :
  endsWith "chrome_2018-03-04T05-06-07.089Z_parent-title.png" ".png" = true
  /\ exists placeholders,
       getPlaceholderLookup (testScreenshot "ERROR_chrome_12345_67890.png" "parent" "title")
       = Ok placeholders
       /\ "chrome_2018-03-04T05-06-07.089Z_parent-title.png"
          = resolveTemplate placeholders
              (filenameTemplate (constructor testConfig)) ++ ".png".
Proof.
  apply (screenshot_name_has_extension (constructor testConfig)
           (testScreenshot "ERROR_chrome_12345_67890.png" "parent" "title")).
  reflexivity.
Defined.

(** The default template, resolved: the values are put in as they are and
    are not scanned again. *)
Lemma resolveTemplate_default (placeholders : Placeholders) :
  resolveTemplate placeholders defaultFilenameTemplate
  = timestamp placeholders ++ "_" ++ capId placeholders ++ "_"
    ++ parent_ placeholders ++ "-" ++ title_ placeholders.
Proof.
  destruct placeholders as [cap brw bn ts par tit].
  unfold resolveTemplate, replaceAll, defaultFilenameTemplate. cbn.
  now rewrite append_empty_r.
Qed.

(** X12. With the default template the file name of a record is
    [<timestamp>_<browser>_<parent>-<title>.png]: the [toJSON()] text with
    dashes for colons, the inferred browser, and the two slugs. *)
Theorem default_name_formula (config : Config) (name : string) (date : Date)
    (parentText titleText : string) :
  NoTemplate config ->
  getScreenshotName (constructor config)
    {| filename := Some name; time := Some date;
       parent := Some parentText; title := Some titleText |}
  = Ok (mapString colonToDash (toJSON date) ++ "_"
        ++ getBrowserFromScreenshotName name ++ "_"
        ++ slugify parentText ++ "-" ++ slugify titleText ++ ".png").
Proof.
  intros H.
  assert (E : filenameTemplate (constructor config) = defaultFilenameTemplate)
    by (destruct H; reflexivity).
  unfold getScreenshotName, replaceFilenameTemplatePlaceholders, getPlaceholderLookup.
  cbn [filename time parent title prop bind]. rewrite E, resolveTemplate_default.
  cbn [timestamp capId parent_ title_]. rewrite replaceColons_map.
  f_equal. now rewrite !append_assoc.
Qed.

Lemma default_name_formula_witness :
  getScreenshotName
    (constructor {| screenshotPath := "errorShots"; reporterOptions := None |})
    {| filename := Some "ERROR_chrome_12345_1337.png"; time := Some testDate;
       parent := Some "parent text here"; title := Some "title text here" |}
  = Ok (mapString colonToDash (toJSON testDate) ++ "_"
        ++ getBrowserFromScreenshotName "ERROR_chrome_12345_1337.png" ++ "_"
        ++ slugify "parent text here" ++ "-" ++ slugify "title text here" ++ ".png").
Proof.
  apply (default_name_formula
           {| screenshotPath := "errorShots"; reporterOptions := None |}).
  apply no_reporterOptions.
Defined.

(** ** The event handler: no exception, no memory *)


(** ** The earlier revision against the present one *)



(** X15. Without a template in the configuration the earlier revision
    writes its diagnostic and then raises a [TypeError] when
    [reporterOptions] or [errorshotReporter] is missing, and falls back to
    [%capId%_%parent%-%title%_%timestamp%] otherwise. *)
Theorem earlier_template_fallback (log : string -> World -> World)
    (config : Config) (w : World) :
  NoTemplate config ->
  snd (Earlier.getOptionFilenameTemplate log config w)
  = log "No template name defined in the configs." w
  /\ fst (Earlier.getOptionFilenameTemplate log config w)
     = match reporterOptions config with
       | None => Throw TypeError
       | Some options =>
           match errorshotReporter options with
           | None => Throw TypeError
           | Some _ => Ok "%capId%_%parent%-%title%_%timestamp%"
           end
       end.
Proof. intros H. destruct H; split; reflexivity. Qed.

Lemma earlier_template_fallback_witness :
  snd (Earlier.getOptionFilenameTemplate consoleLog
         {| screenshotPath := "errorShots"; reporterOptions := None |} [])
  = consoleLog "No template name defined in the configs." []
  /\ fst (Earlier.getOptionFilenameTemplate consoleLog
            {| screenshotPath := "errorShots"; reporterOptions := None |} [])
     = Throw TypeError.
Proof.
  apply (earlier_template_fallback consoleLog
           {| screenshotPath := "errorShots"; reporterOptions := None |} []).
  apply no_reporterOptions.
Defined.

(** X16. On a file name that starts with [ERROR] and has a non-empty
    capture both revisions infer the same browser; everywhere else the
    earlier revision returns the capture or the empty string, where the
    present one returns a known name or the sentinel. *)
Theorem revisions_agree_on_error_names (filename : string) :
  (startsWith filename "ERROR" = true
   /\ Earlier.getCapabilitiesFromScreenshotName filename <> ""
   /\ getBrowserFromScreenshotName filename
      = Earlier.getCapabilitiesFromScreenshotName filename)
  \/ ((startsWith filename "ERROR" = false
       \/ Earlier.getCapabilitiesFromScreenshotName filename = "")
      /\ (getBrowserFromScreenshotName filename = "unknown_browser"
          \/ In (getBrowserFromScreenshotName filename) browsers)).
Proof.
  assert (Hcap : capture filename = None
                 /\ Earlier.getCapabilitiesFromScreenshotName filename = ""
                 \/ capture filename
                    = Some (Earlier.getCapabilitiesFromScreenshotName filename)).
  { unfold capture, Earlier.getCapabilitiesFromScreenshotName.
    destruct (matchUnderscoreGroup filename) as [[full group]|]; [now right | now left]. }
  destruct (startsWith filename "ERROR") eqn:Hp.
  - destruct (String.eqb_spec (Earlier.getCapabilitiesFromScreenshotName filename) "")
      as [He | Hne].
    + right. split; [now right|].
      rewrite getBrowser_fallback; [apply fallbackName_cases|]. left.
      destruct Hcap as [[Hc _] | Hc]; rewrite Hc; [reflexivity|].
      simpl. now rewrite He.
    + left. split; [reflexivity | split; [exact Hne|]].
      destruct Hcap as [[_ He] | Hc]; [contradiction|].
      now apply getBrowser_capture.
  - right. split; [now left|].
    rewrite getBrowser_fallback by now right. apply fallbackName_cases.
Qed.
